(** * Sequoia: the fundamental-reversal strategy

    A shallow embedding of [strategy/fundamental_reversal.py]:

    - [check_ma_breakthrough]: the technical gate (prior downtrend of MA60,
      break through MA250, volume expansion);
    - [check_financial_growth], [check_financial_ratios]: the two fundamental
      gates, which talk to the external data provider (akshare);
    - [check]: the composite, short-circuiting evaluation.

    Numbers.  The detector works on the exact rational value of each close
    and volume; an average that is not defined (the look-back prefix of a
    moving average, the mean of nothing) is [NaN].  The rounding of talib's
    and pandas' averages is not represented there.  The fundamental figures
    (ROE, debt ratio, net profit, dividend amount, quoted price) are binary64
    cells, the kernel's primitive floats: their comparisons and the yield of
    line 193 are the IEEE 754 operations, with their rounding, their
    infinities and their NaN.

    Effects.  The price history is a pandas frame that the detector augments
    in place, so it is threaded explicitly: [check_ma_breakthrough] returns
    its verdict together with the frame as the caller sees it afterwards.
    Provider fetches and Python exceptions are the nodes of a finite
    interaction tree [Prog], interpreted against an arbitrary (possibly
    stateful) provider by [run]. *)

From Stdlib Require Import Floats.
From Stdlib Require Import String ZArith QArith Bool Lia Arith List.
From ExtLib Require Import Structures.Monad Structures.MonadExc.
Import ListNotations.

Set Implicit Arguments.

(* ===================================================================== *)
(** * Numbers *)
(* ===================================================================== *)

Module Float.

(** A value of the detector: the exact rational value of a float64 number,
    or one of the three special values. *)
Inductive float : Type :=
| NaN
| NInf
| PInf
| Fin (q : Q).

Definition Qltb (a b : Q) : bool := negb (Qle_bool b a).

(** [x < y]; false as soon as one side is NaN. *)
Definition lt (x y : float) : bool :=
  match x, y with
  | NaN, _ | _, NaN => false
  | Fin a, Fin b => Qltb a b
  | NInf, NInf => false
  | NInf, _ => true
  | PInf, _ => false
  | Fin _, PInf => true
  | Fin _, NInf => false
  end.

(** [x <= y]; false as soon as one side is NaN. *)
Definition le (x y : float) : bool :=
  match x, y with
  | NaN, _ | _, NaN => false
  | Fin a, Fin b => Qle_bool a b
  | NInf, _ => true
  | PInf, PInf => true
  | PInf, _ => false
  | Fin _, PInf => true
  | Fin _, NInf => false
  end.

(** [x == y]; NaN equals nothing. *)
Definition eqb (x y : float) : bool :=
  match x, y with
  | Fin a, Fin b => Qeq_bool a b
  | PInf, PInf | NInf, NInf => true
  | _, _ => false
  end.

Definition gt (x y : float) : bool := lt y x.
Definition ge (x y : float) : bool := le y x.

Definition sub (x y : float) : float :=
  match x, y with
  | NaN, _ | _, NaN => NaN
  | Fin a, Fin b => Fin (a - b)
  | PInf, PInf | NInf, NInf => NaN
  | PInf, _ => PInf
  | NInf, _ => NInf
  | Fin _, PInf => NInf
  | Fin _, NInf => PInf
  end.

Definition of_Z (z : Z) : float := Fin (inject_Z z).

End Float.

Import Float.

(** A binary64 cell of the fundamental data. *)
Definition float64 : Set := PrimFloat.float.
Bind Scope float_scope with float64.

(** Sum of a column of integers, and [Series.mean()]: NaN on an empty
    series. *)
Definition sum_Z (l : list Z) : Z := fold_left Z.add l 0%Z.

Definition mean (l : list Z) : float :=
  match l with
  | [] => NaN
  | _ => Fin (inject_Z (sum_Z l) / inject_Z (Z.of_nat (length l)))
  end.

Definition sum_Q (l : list Q) : Q := fold_left Qplus l 0.

(** Python's [sum] over a boolean series: the number of [True] entries. *)
Definition sum_bool (l : list bool) : nat :=
  fold_right (fun (b : bool) (n : nat) => if b then S n else n) 0%nat l.

(* ===================================================================== *)
(** * Row selection *)
(* ===================================================================== *)

Section Rows.
Context {A : Type}.

(** [l[-n:]] for [n > 0], which is also [DataFrame.tail(n)]. *)
Definition last_rows (n : nat) (l : list A) : list A :=
  skipn (length l - n) l.

(** [l[:-n]] for [n > 0]. *)
Definition drop_last_rows (n : nat) (l : list A) : list A :=
  firstn (length l - n) l.

(** [l[-a:-b]] for [a, b > 0]: both ends are clipped at the first row. *)
Definition slice_neg (a b : nat) (l : list A) : list A :=
  skipn (length l - a) (firstn (length l - b) l).
End Rows.

(* ===================================================================== *)
(** * Moving averages *)
(* ===================================================================== *)

(** Modelled from the spec: talib's [MA] (simple moving average) is an
    external library; section 4.1 gives its contract.  The output has the
    length of the input, entry [i] is undefined for [i < timeperiod - 1] and
    is otherwise the arithmetic mean of [closes[i-timeperiod+1 .. i]]. *)
Definition MA (closes : list Q) (timeperiod : nat) : list float :=
  map (fun i =>
         if (S i <? timeperiod)%nat then NaN
         else Fin (sum_Q (firstn timeperiod (skipn (S i - timeperiod) closes))
                   / inject_Z (Z.of_nat timeperiod)))
      (seq 0 (length closes)).

(* ===================================================================== *)
(** * The price history *)
(* ===================================================================== *)

(** One row of the frame: the columns 日期, 收盘 and 成交量. *)
Record Bar : Type := mkBar { date : Z; close : Q; volume : Z }.

(** The frame itself: its rows, and the two derived columns, which are
    absent ([None]) until somebody assigns them. *)
Record DataFrame : Type := mkFrame {
  bars : list Bar;
  MA250 : option (list float);
  MA60 : option (list float)
}.

Definition len (df : DataFrame) : nat := length (bars df).

(** [df[name] = values] for the two derived columns. *)
Definition set_MA250 (df : DataFrame) (v : list float) : DataFrame :=
  {| bars := bars df; MA250 := Some v; MA60 := MA60 df |}.

Definition set_MA60 (df : DataFrame) (v : list float) : DataFrame :=
  {| bars := bars df; MA250 := MA250 df; MA60 := Some v |}.

(** A row selection acts on every column. *)
Definition select (f : forall A : Type, list A -> list A) (df : DataFrame)
  : DataFrame :=
  {| bars := f _ (bars df);
     MA250 := option_map (f _) (MA250 df);
     MA60 := option_map (f _) (MA60 df) |}.

Definition col_close (df : DataFrame) : list Q := map close (bars df).
Definition col_volume (df : DataFrame) : list Z := map volume (bars df).

(** Reading a derived column.  Every read below follows the assignment of
    the column, so the [None] branch (a KeyError) is never taken. *)
Definition col_MA250 (df : DataFrame) : list float :=
  match MA250 df with Some c => c | None => [] end.
Definition col_MA60 (df : DataFrame) : list float :=
  match MA60 df with Some c => c | None => [] end.

(** [s.iloc[0]] and [s.iloc[-1]]; only used on a 30-row window. *)
Definition iloc_first (s : list float) : float := nth 0 s NaN.
Definition iloc_last (s : list float) : float := last s NaN.

(** [closes < averages], element by element. *)
Definition series_lt (xs : list Q) (ys : list float) : list bool :=
  map (fun p => lt (Fin (fst p)) (snd p)) (combine xs ys).

Definition series_gt (xs : list Q) (ys : list float) : list bool :=
  map (fun p => gt (Fin (fst p)) (snd p)) (combine xs ys).

(* ===================================================================== *)
(** * check_ma_breakthrough *)
(* ===================================================================== *)

(** The local variables of [check_ma_breakthrough], each as a function of
    the frame it is called on. *)

(** [data] after line 47 and after line 53. *)
Definition data_with_MA250 (data : DataFrame) : DataFrame :=
  set_MA250 data (MA (col_close data) 250).

Definition data_with_MA60 (data : DataFrame) : DataFrame :=
  let data := data_with_MA250 data in
  set_MA60 data (MA (col_close data) 60).

(** Line 50: taken after MA250 is attached and before MA60 is. *)
Definition recent_data (data : DataFrame) : DataFrame :=
  select (fun _ => last_rows 30) (data_with_MA250 data).

(** Line 54. *)
Definition downtrend_days (data : DataFrame) : DataFrame :=
  select (fun _ => slice_neg 60 30) (data_with_MA60 data).

(** Line 60. *)
Definition ma60_slope (data : DataFrame) : float :=
  let s := col_MA60 (downtrend_days data) in
  sub (iloc_last s) (iloc_first s).

(** Lines 66-67. *)
Definition before_break (data : DataFrame) : DataFrame :=
  select (fun _ => drop_last_rows 5) (recent_data data).

Definition after_break (data : DataFrame) : DataFrame :=
  select (fun _ => last_rows 5) (recent_data data).

(** Line 73. *)
Definition below_ma250_before (data : DataFrame) : nat :=
  let w := select (fun _ => last_rows 10) (before_break data) in
  sum_bool (series_lt (col_close w) (col_MA250 w)).

(** Line 78. *)
Definition above_ma250_after (data : DataFrame) : nat :=
  let w := after_break data in
  sum_bool (series_gt (col_close w) (col_MA250 w)).

(** Lines 83-84. *)
Definition avg_volume_before (data : DataFrame) : float :=
  mean (col_volume (before_break data)).

Definition avg_volume_after (data : DataFrame) : float :=
  mean (col_volume (after_break data)).

(** The verdict, and the caller's frame after the call. *)
Definition check_ma_breakthrough (data : DataFrame) : bool * DataFrame :=
  let data' := data_with_MA60 data in
  if (len (downtrend_days data) <? 30)%nat then (false, data')
  else if ge (ma60_slope data) (of_Z 0) then (false, data')
  else if ((len (before_break data) <? 10)%nat
           || (len (after_break data) <? 5)%nat)%bool then (false, data')
  else if (below_ma250_before data <? 8)%nat then (false, data')
  else if (above_ma250_after data <? 3)%nat then (false, data')
  else if le (avg_volume_after data) (avg_volume_before data)
       then (false, data')
  else (true, data').

(* ===================================================================== *)
(** * The data provider and Python exceptions *)
(* ===================================================================== *)

(** The exceptions the strategy can meet; a provider may raise any of them. *)
Inductive exn : Type :=
| KeyError (column : string)
| IndexError
| TypeError
| ProviderError (message : string).

Inductive Outcome (X : Type) : Type :=
| Returned (x : X)
| Raised (e : exn).
Arguments Returned {X} x.
Arguments Raised {X} e.

(** The frames the provider answers with.  A frame lists its rows; a flag
    per column says whether the column is there at all (reading an absent
    column is a KeyError, and the row field is then meaningless). *)

(** 净资产收益率(%) and 资产负债率(%). *)
Record IndicatorRow : Type := mkIndicator {
  roe : float64;
  debt_ratio : float64
}.
Record IndicatorFrame : Type := mkIndicators {
  has_roe : bool;
  has_debt_ratio : bool;
  indicator_rows : list IndicatorRow
}.

(** 净利润, most recent report first. *)
Record ProfitFrame : Type := mkProfits {
  has_net_profit : bool;
  net_profit_rows : list float64
}.

(** 年份 and 分红金额(元). *)
Record DividendRow : Type := mkDividend { year : Z; amount : float64 }.
Record DividendFrame : Type := mkDividends {
  has_year : bool;
  has_amount : bool;
  dividend_rows : list DividendRow
}.

(** 代码 and 最新价. *)
Record SpotRow : Type := mkSpot { spot_code : string; latest : float64 }.
Record SpotFrame : Type := mkSpots {
  has_code : bool;
  has_latest : bool;
  spot_rows : list SpotRow
}.

(** The four akshare entry points the strategy calls. *)
Inductive fetch : Type :=
| stock_financial_analysis_indicator (symbol : string)
| stock_financial_report_sina (symbol : string) (report_type : string)
| stock_history_dividend_detail (symbol : string)
| stock_zh_a_spot_em.

(** What each of them returns when it returns: a frame, or Python's None. *)
Definition response (f : fetch) : Type :=
  match f with
  | stock_financial_analysis_indicator _ => option IndicatorFrame
  | stock_financial_report_sina _ _ => option ProfitFrame
  | stock_history_dividend_detail _ => option DividendFrame
  | stock_zh_a_spot_em => option SpotFrame
  end.

(** A computation that may fetch, return or raise.  The continuation of a
    fetch receives what the provider did: returned a value or raised. *)
Inductive Prog (R : Type) : Type :=
| Ret (r : R)
| Raise (e : exn)
| Call (f : fetch) (k : Outcome (response f) -> Prog R).
Arguments Ret {R} r.
Arguments Raise {R} e.
Arguments Call {R} f k.

Fixpoint bind_prog {A B : Type} (p : Prog A) (g : A -> Prog B) : Prog B :=
  match p with
  | Ret a => g a
  | Raise e => Raise e
  | Call f k => Call f (fun o => bind_prog (k o) g)
  end.

(** [try: p except: h]. *)
Fixpoint try_catch {A : Type} (p : Prog A) (h : exn -> Prog A) : Prog A :=
  match p with
  | Ret a => Ret a
  | Raise e => h e
  | Call f k => Call f (fun o => try_catch (k o) h)
  end.

(** A plain call: an exception of the provider propagates. *)
Definition call (f : fetch) : Prog (response f) :=
  Call f (fun o => match o with Returned x => Ret x | Raised e => Raise e end).

#[global] Instance Monad_Prog : Monad Prog :=
  {| ret := @Ret; bind := @bind_prog |}.

#[global] Instance MonadExc_Prog : MonadExc exn Prog :=
  {| raise := @Raise; catch := @try_catch |}.

(** A provider: any state, and any answer to each fetch in each state. *)
Record Provider : Type := mkProvider {
  pstate : Type;
  respond : forall f : fetch, pstate -> Outcome (response f) * pstate
}.

(** One entry of the fetch log: which fetch, and whether it raised. *)
Record Event : Type := mkEvent { ev_fetch : fetch; ev_raised : bool }.

Definition is_raised {X : Type} (o : Outcome X) : bool :=
  match o with Returned _ => false | Raised _ => true end.

(** Running a computation against a provider: how it ends, and the log of
    the fetches made on the way. *)
Fixpoint run {R : Type} (P : Provider) (p : Prog R) (s : pstate P)
  : Outcome R * list Event :=
  match p with
  | Ret r => (Returned r, [])
  | Raise e => (Raised e, [])
  | Call f k =>
      let (o, s') := respond P f s in
      let (r, log) := run P (k o) s' in
      (r, mkEvent f (is_raised o) :: log)
  end.

(* ===================================================================== *)
(** * The fundamental gates *)
(* ===================================================================== *)

Import MonadNotation.
Local Open Scope monad_scope.
Local Open Scope string_scope.

(** [frame[name]]: the column, or a KeyError when the frame has none. *)
Definition column {Row V : Type} (present : bool) (name : string)
           (field : Row -> V) (rows : list Row) : Prog (list V) :=
  if present then ret (map field rows) else raise (KeyError name).

(** [series.iloc[0]]. *)
Definition iloc0 {V : Type} (s : list V) : Prog V :=
  match s with
  | v :: _ => ret v
  | [] => raise IndexError
  end.

(** [frame.empty]. *)
Definition empty {Row : Type} (rows : list Row) : bool :=
  match rows with [] => true | _ => false end.

(** Lines 122-128: the flag starts true and is cleared by every pair in
    which the more recent figure does not exceed the older one. *)
Definition profit_increasing (recent_profits : list float64) : bool :=
  fold_left
    (fun (flag : bool) (i : nat) =>
       if (nth i recent_profits 0 <=? nth (S i) recent_profits 0)%float
       then false else flag)
    (seq 0 (length recent_profits - 1))
    true.

(** Lines 123 and 131-132. *)
Definition profit_turning_positive (recent_profits : list float64) : bool :=
  (nth 3 recent_profits 0 <? 0)%float && (0 <? nth 0 recent_profits 0)%float.

(** Lines 117-135, on the 净利润 column. *)
Definition profit_trajectory (net_profit : list float64) : bool :=
  let recent_profits := firstn 4 net_profit in
  if (length recent_profits <? 4)%nat then false
  else profit_increasing recent_profits
       || profit_turning_positive recent_profits.

(** Logging is not represented. *)
Definition check_financial_growth (code : string) : Prog bool :=
  catch
    (financial_data <- call (stock_financial_analysis_indicator code) ;;
     match financial_data with
     | None => ret false
     | Some financial_data =>
       if empty (indicator_rows financial_data) then ret false
       else if negb (has_roe financial_data) then ret false
       else
         recent_roe <- iloc0 (map roe (indicator_rows financial_data)) ;;
         if (recent_roe <? 10)%float then ret false
         else
           profit_data <- call (stock_financial_report_sina code "利润表") ;;
           match profit_data with
           | None => ret false
           | Some profit_data =>
             if empty (net_profit_rows profit_data) then ret false
             else if negb (has_net_profit profit_data) then ret false
             else ret (profit_trajectory (net_profit_rows profit_data))
           end
     end)
    (fun _ => ret false).

(** Lines 179-189: the live quote of [code], None when the fetch or the
    look-up fails (the bare [except: pass]) or the code is not listed. *)
Definition live_quote (code : string) : Prog (option float64) :=
  catch
    (stock_info <- call stock_zh_a_spot_em ;;
     match stock_info with
     | None => raise TypeError
     | Some stock_info =>
       codes <- column (has_code stock_info) "代码" spot_code
                       (spot_rows stock_info) ;;
       let rows := filter (fun r => String.eqb (spot_code r) code)
                          (spot_rows stock_info) in
       if empty rows then ret None
       else
         prices <- column (has_latest stock_info) "最新价" latest rows ;;
         price <- iloc0 prices ;;
         ret (Some price)
     end)
    (fun _ => ret None).

(** The float64 cell whose exact value the detector reads as [q].  The
    quotient is exact whenever numerator and denominator are float64
    numbers themselves, as they are for the value of a float64 cell of
    ordinary size written in lowest terms. *)
Definition float64_of_Z (z : Z) : float64 :=
  SF2Prim (binary_normalize prec emax z 0 false).

Definition float64_of_Q (q : Q) : float64 :=
  (float64_of_Z (Qnum q) / float64_of_Z (Zpos (Qden q)))%float.

(** [data.iloc[-1]['收盘']]. *)
Definition last_close (data : DataFrame) : Prog float64 :=
  match rev (col_close data) with
  | c :: _ => ret (float64_of_Q c)
  | [] => raise IndexError
  end.

(** Line 173: the records of [first_year] and later. *)
Definition dividends_since (first_year : Z) (rows : list DividendRow)
  : list DividendRow :=
  filter (fun r => (first_year <=? year r)%Z) rows.

(** Line 192, [Series.sum()].  pandas puts 0 in the place of every NaN
    and hands the array to numpy (the optional bottleneck accelerator is
    taken to be absent), which adds float64 numbers in this order:
    fewer than 8 of them from left to right; up to 128 of them on 8
    accumulators, one per position modulo 8, which are then added in
    pairs, the last [n mod 8] numbers being added one by one at the end;
    more of them by halves.  The sign of a zero sum is not followed (it
    depends on the version of numpy), and it cannot change any comparison
    made below. *)
Definition add_each (r a : list float64) : list float64 :=
  map (fun p => (fst p + snd p)%float) (combine r a).

Fixpoint add_blocks (fuel : nat) (r a : list float64)
  : list float64 * list float64 :=
  match fuel with
  | O => (r, a)
  | S fuel' =>
      if (8 <=? length a)%nat
      then add_blocks fuel' (add_each r (firstn 8 a)) (skipn 8 a)
      else (r, a)
  end.

Definition sum_left (a : list float64) (start : float64) : float64 :=
  fold_left PrimFloat.add a start.

Definition sum_block (a : list float64) : float64 :=
  let (r, rest) := add_blocks (length a) (firstn 8 a) (skipn 8 a) in
  match r with
  | [r0; r1; r2; r3; r4; r5; r6; r7] =>
      sum_left rest (((r0 + r1) + (r2 + r3)) + ((r4 + r5) + (r6 + r7)))%float
  | _ => nan
  end.

Fixpoint pairwise_sum (fuel : nat) (a : list float64) : float64 :=
  let n := length a in
  if (n <? 8)%nat then sum_left a 0
  else if (n <=? 128)%nat then sum_block a
  else
    match fuel with
    | O => nan
    | S fuel' =>
        let n2 := (n / 2 - (n / 2) mod 8)%nat in
        (pairwise_sum fuel' (firstn n2 a)
         + pairwise_sum fuel' (skipn n2 a))%float
    end.

Definition series_sum (s : list float64) : float64 :=
  let filled := map (fun x => if PrimFloat.is_nan x then 0 else x)%float s in
  (0 + pairwise_sum (length s) filled)%float.

(** Line 193. *)
Definition dividend_yield (total_dividend latest_price : float64)
  : float64 :=
  (total_dividend / latest_price * 100)%float.

(** [current_year] is the year read from the system clock at line 172.
    The [return True] that follows the inner [try] is written as the last
    step of its body: it cannot raise, so the two are the same. *)
Definition check_financial_ratios (current_year : Z) (code : string)
           (data : DataFrame) : Prog bool :=
  catch
    (balance_data <- call (stock_financial_analysis_indicator code) ;;
     match balance_data with
     | None => ret false
     | Some balance_data =>
       if empty (indicator_rows balance_data) then ret false
       else if negb (has_debt_ratio balance_data) then ret false
       else
         debt <- iloc0 (map debt_ratio (indicator_rows balance_data)) ;;
         if (20 <? debt)%float then ret false
         else
           catch
             (dividend_data <- call (stock_history_dividend_detail code) ;;
              match dividend_data with
              | None => ret false
              | Some dividend_data =>
                if empty (dividend_rows dividend_data) then ret false
                else
                  years <- column (has_year dividend_data) "年份" year
                                  (dividend_rows dividend_data) ;;
                  let recent_dividends :=
                    dividends_since (current_year - 1)
                                    (dividend_rows dividend_data) in
                  if (length recent_dividends =? 0)%nat then ret false
                  else
                    quote <- live_quote code ;;
                    latest_price <- match quote with
                                    | Some p => ret p
                                    | None => last_close data
                                    end ;;
                    amounts <- column (has_amount dividend_data)
                                      "分红金额(元)" amount
                                      recent_dividends ;;
                    let total_dividend := series_sum amounts in
                    if (dividend_yield total_dividend latest_price <? 3)%float
                    then ret false
                    else ret true
              end)
             (fun _ => ret false)
     end)
    (fun _ => ret false).

(* ===================================================================== *)
(** * check *)
(* ===================================================================== *)

(** [l[mask]]: the entries whose mask bit is set. *)
Definition by_mask {A : Type} (mask : list bool) (l : list A) : list A :=
  map snd (filter fst (combine mask l)).

(** Lines 19-21: the rows dated [end_date] or earlier, in a new frame. *)
Definition until (end_date : option Z) (data : DataFrame) : DataFrame :=
  match end_date with
  | None => data
  | Some d =>
      let mask := map (fun b => (date b <=? d)%Z) (bars data) in
      select (fun _ => by_mask mask) data
  end.

Definition check (current_year : Z) (code_name : string * string)
           (data : DataFrame) (end_date : option Z) : Prog bool :=
  let code := fst code_name in
  let data := until end_date data in
  if (len data <? 250)%nat then ret false
  else
    let (breakthrough, data) := check_ma_breakthrough data in
    if negb breakthrough then ret false
    else
      growth <- check_financial_growth code ;;
      if negb growth then ret false
      else
        ratios <- check_financial_ratios current_year code data ;;
        if negb ratios then ret false
        else ret true.

(** The caller's frame once [check] has returned.  Without an end date the
    name [data] still denotes the caller's own frame when line 28 hands it
    to the detector, whose lines 47 and 53 assign its columns.  With an end
    date line 21 rebinds [data] to the selection [data.loc[mask]], a new
    frame: the columns land on that one and the caller's stays as it was.
    A series that fails the guard of line 24 never reaches the detector. *)
Definition check_frame (data : DataFrame) (end_date : option Z)
  : DataFrame :=
  match end_date with
  | Some _ => data
  | None =>
      if (len data <? 250)%nat then data
      else snd (check_ma_breakthrough data)
  end.

Local Open Scope list_scope.

(* ===================================================================== *)
(** * Auxiliary notions *)
(* ===================================================================== *)

(** How many entries of a column are numbers. *)
Definition is_nan (x : float) : bool :=
  match x with NaN => true | _ => false end.

Definition defined (s : list float) : nat :=
  sum_bool (map (fun x => negb (is_nan x)) s).

Definition is_fin (x : float) : Prop :=
  match x with Fin _ => True | _ => False end.

(** The mean volume of the ten bars that precede the final five: the
    window the written specification names for the volume comparison.  The
    code compares against [avg_volume_before] instead. *)
Definition spec_avg_volume_before10 (data : DataFrame) : float :=
  mean (col_volume (select (fun _ => last_rows 10) (before_break data))).

(** A provider without state: one fixed answer per fetch. *)
Definition stateless (answer : forall f : fetch, Outcome (response f))
  : Provider :=
  {| pstate := unit; respond := fun f s => (answer f, s) |}.

(** Some fetch of the log raised, among those selected by [critical]. *)
Definition raised_in (critical : fetch -> bool) (log : list Event) : bool :=
  existsb (fun ev => ev_raised ev && critical (ev_fetch ev)) log.

Definition any_fetch (f : fetch) : bool := true.

Definition not_the_quote (f : fetch) : bool :=
  match f with stock_zh_a_spot_em => false | _ => true end.

(** [absorbed critical p]: on every path [p] ends by returning, never by
    raising; and when a fetch selected by [critical] raises, [p] returns
    false there and then. *)
Fixpoint absorbed (critical : fetch -> bool) (p : Prog bool) : Prop :=
  match p with
  | Ret _ => True
  | Raise _ => False
  | Call f k =>
      (forall x, absorbed critical (k (Returned x))) /\
      (forall e, if critical f then k (Raised e) = Ret false
                 else absorbed critical (k (Raised e)))
  end.

(* ===================================================================== *)
(** * Sample inputs *)
(* ===================================================================== *)

(** A bare frame of [n] daily bars. *)
Definition mk_series (n : nat) (price : nat -> Z) (vol : nat -> Z)
  : DataFrame :=
  {| bars := map (fun i => mkBar (Z.of_nat i) (inject_Z (price i)) (vol i))
                 (seq 0 n);
     MA250 := None; MA60 := None |}.

(** A steady decline; two of the ten bars before the break and three of the
    last five bars close far above it. *)
Definition reversal_price (i : nat) : Z :=
  if (i <? 285)%nat then 1000 - 2 * Z.of_nat i
  else if (i <? 287)%nat then 1000
  else if (i <? 295)%nat then 1000 - 2 * Z.of_nat i
  else if (i <? 298)%nat then 1000
  else 400.

Definition volume_expanding (i : nat) : Z :=
  if (i <? 295)%nat then 100 else 200.

(** Heavy volume early in the 25-bar window, light volume just before the
    break. *)
Definition volume_front_loaded (i : nat) : Z :=
  if (i <? 285)%nat then 1000 else if (i <? 295)%nat then 100 else 150.

(** Light volume early in the 25-bar window, and the same volume in the ten
    bars before the break as after it. *)
Definition volume_back_loaded (i : nat) : Z :=
  if (i <? 285)%nat then 10 else 200.

Definition volume_flat (i : nat) : Z := 100.

Definition reversal : DataFrame := mk_series 300 reversal_price volume_expanding.
Definition reversal_front_loaded : DataFrame :=
  mk_series 300 reversal_price volume_front_loaded.
Definition reversal_back_loaded : DataFrame :=
  mk_series 300 reversal_price volume_back_loaded.
Definition reversal_flat_volume : DataFrame :=
  mk_series 300 reversal_price volume_flat.
Definition reversal_261 : DataFrame :=
  mk_series 261 reversal_price volume_expanding.
Definition reversal_249 : DataFrame :=
  mk_series 249 reversal_price volume_expanding.
Definition sideways : DataFrame :=
  mk_series 250 (fun _ => 10%Z) volume_flat.

(** A provider with healthy indicators (ROE 15, debt ratio 10), the given
    profit column, one dividend record for 2026, and the given behaviour of
    the quote fetch. *)
Definition healthy_indicators : IndicatorFrame :=
  mkIndicators true true [mkIndicator 15 10].

Definition answers (profits : list float64) (dividend : float64)
           (quote : Outcome (option SpotFrame))
  : forall f : fetch, Outcome (response f) :=
  fun f =>
    match f as f0 return Outcome (response f0) with
    | stock_financial_analysis_indicator _ =>
        Returned (Some healthy_indicators)
    | stock_financial_report_sina _ _ =>
        Returned (Some (mkProfits true profits))
    | stock_history_dividend_detail _ =>
        Returned (Some (mkDividends true true [mkDividend 2026 dividend]))
    | stock_zh_a_spot_em => quote
    end.

Definition quote_at (code : string) (price : float64)
  : Outcome (option SpotFrame) :=
  Returned (Some (mkSpots true true [mkSpot code price])).

Definition quote_down : Outcome (option SpotFrame) :=
  Raised (ProviderError "timeout").

(** The price the yield is computed from: the live quote when there is one,
    else the last close of the series. *)
Definition quote_or_last_close (quote : option float64) (data : DataFrame)
  : option float64 :=
  match quote with
  | Some p => Some p
  | None => match rev (col_close data) with
            | c :: _ => Some (float64_of_Q c)
            | [] => None
            end
  end.

(** The live quote as the provider's answer to the quote fetch gives it:
    the 最新价 of the first row of the table whose 代码 is [code], when the
    fetch returns a table with both columns and such a row. *)
Definition spec_live_quote (answer : Outcome (option SpotFrame))
           (code : string) : option float64 :=
  match answer with
  | Returned (Some table) =>
      match filter (fun r => String.eqb (spot_code r) code)
                   (spot_rows table) with
      | r :: _ =>
          if has_code table && has_latest table then Some (latest r)
          else None
      | [] => None
      end
  | _ => None
  end.

(** The verdict of a computation against a stateless provider. *)
Definition eval {R : Type} (answer : forall f : fetch, Outcome (response f))
           (p : Prog R) : Outcome R :=
  fst (run (stateless answer) p tt).

(** [fetches_at_most n p]: no path of [p] makes more than [n] fetches. *)
Fixpoint fetches_at_most {R : Type} (n : nat) (p : Prog R) : Prop :=
  match p with
  | Ret _ | Raise _ => True
  | Call f k =>
      match n with
      | O => False
      | S m => forall o, fetches_at_most m (k o)
      end
  end.

(** More sample inputs: a series too young for MA60 to reach back over the
    downtrend window; the reversal under other dates, with other volumes
    before the recent 30 bars and with stale derived columns; the reversal
    followed by two later bars. *)
Definition young : DataFrame :=
  mk_series 100 reversal_price volume_expanding.

Definition reversal_redated : DataFrame :=
  {| bars := map (fun b => mkBar (date b + 1000) (close b)
                             (if (date b <? 270)%Z then 1%Z else volume b))
                 (bars reversal);
     MA250 := Some [];
     MA60 := None |}.

Definition reversal_with_future : DataFrame :=
  {| bars := bars reversal ++ [mkBar 300 5 1; mkBar 301 2000 9];
     MA250 := None;
     MA60 := Some [NaN] |}.

(** A provider given by its four answers. *)
Definition answers_of (indicators : Outcome (option IndicatorFrame))
           (profits : Outcome (option ProfitFrame))
           (dividends : Outcome (option DividendFrame))
           (quote : Outcome (option SpotFrame))
  : forall f : fetch, Outcome (response f) :=
  fun f =>
    match f as f0 return Outcome (response f0) with
    | stock_financial_analysis_indicator _ => indicators
    | stock_financial_report_sina _ _ => profits
    | stock_history_dividend_detail _ => dividends
    | stock_zh_a_spot_em => quote
    end.

(** A weak company (ROE 9.5, debt ratio 35), and a sound one whose last
    dividends date from 2020 and 2019. *)
Definition weak_indicators : IndicatorFrame :=
  mkIndicators true true [mkIndicator 9.5 35].

Definition weak_answers : forall f : fetch, Outcome (response f) :=
  answers_of (Returned (Some weak_indicators))
             (Returned (Some (mkProfits true [8; 2; -5; -10]%float)))
             (Returned (Some (mkDividends true true [mkDividend 2026 1])))
             (quote_at "600000" 10).

Definition stale_dividends : DividendFrame :=
  mkDividends true true [mkDividend 2020 5; mkDividend 2019 5].

Definition stale_answers : forall f : fetch, Outcome (response f) :=
  answers_of (Returned (Some healthy_indicators))
             (Returned (Some (mkProfits true [8; 2; -5; -10]%float)))
             (Returned (Some stale_dividends))
             (quote_at "600000" 10).

(** A frame without any bar. *)
Definition no_bars : DataFrame := mkFrame [] None None.

(* ===================================================================== *)
(** * Proof automation *)
(* ===================================================================== *)

(** Unfolds the windows down to row selections on the columns. *)
Ltac windows :=
  unfold len, downtrend_days, before_break, after_break, recent_data, select,
    data_with_MA60, data_with_MA250, set_MA60, set_MA250;
  cbn [bars MA250 MA60 option_map].

(** Walks through a computation: one step of evaluation, then a case
    distinction on whatever the next test looks at. *)
Ltac crunch :=
  repeat (cbn;
          match goal with
          | |- True => exact I
          | |- _ = _ => reflexivity
          | |- _ /\ _ => split
          | |- forall _, _ => intro
          | |- context [match ?x with _ => _ end] => destruct x
          | |- context [if ?c then _ else _] => destruct c
          end).

(** Like [crunch], but never takes a computation itself apart: only the
    data that the computation inspects. *)
Ltac walk :=
  repeat (cbn;
          match goal with
          | |- True => exact I
          | |- forall _, _ => intro
          | |- context [match ?x with _ => _ end] =>
              lazymatch type of x with
              | Prog _ => fail
              | _ => destruct x
              end
          | |- context [if ?c then _ else _] => destruct c
          end).

(** Exposes the tree operations behind the monad notation. *)
Ltac monad := cbn [bind catch ret raise Monad_Prog MonadExc_Prog].

(* ===================================================================== *)
(** * Facts about row selection *)
(* ===================================================================== *)

Section RowFacts.
Context {A : Type}.
Implicit Types l : list A.

Lemma length_last_rows n l :
  length (last_rows n l) = Nat.min n (length l).
Proof. unfold last_rows. rewrite length_skipn. lia. Qed.

Lemma length_drop_last_rows n l :
  length (drop_last_rows n l) = (length l - n)%nat.
Proof. unfold drop_last_rows. rewrite length_firstn. lia. Qed.

Lemma length_slice_neg a b l :
  length (slice_neg a b l) = (length l - b - (length l - a))%nat.
Proof. unfold slice_neg. rewrite length_skipn, length_firstn. lia. Qed.

Lemma length_by_mask mask l : (length (by_mask mask l) <= length l)%nat.
Proof.
  unfold by_mask. rewrite length_map.
  etransitivity; [apply filter_length_le|].
  rewrite length_combine. lia.
Qed.
End RowFacts.

Lemma defined_app s t : defined (s ++ t) = (defined s + defined t)%nat.
Proof.
  unfold defined. induction s as [|x s IH]; simpl; [reflexivity|].
  fold (defined s) in *. destruct (is_nan x); simpl; rewrite IH; reflexivity.
Qed.

Lemma defined_le_length s : (defined s <= length s)%nat.
Proof.
  unfold defined. induction s as [|x s IH]; simpl; [lia|].
  destruct (is_nan x); simpl; lia.
Qed.

Lemma defined_repeat_NaN k : defined (repeat NaN k) = 0%nat.
Proof. induction k; simpl; auto. Qed.

Lemma defined_firstn k s : (defined (firstn k s) <= defined s)%nat.
Proof.
  rewrite <- (firstn_skipn k s) at 2. rewrite defined_app. lia.
Qed.

Lemma defined_skipn k s : (defined (skipn k s) <= defined s)%nat.
Proof.
  rewrite <- (firstn_skipn k s) at 2. rewrite defined_app. lia.
Qed.

(** A comparison against an undefined average is never true, so a window
    has at most as many hits as it has defined averages. *)
Lemma series_lt_defined xs ys :
  (sum_bool (series_lt xs ys) <= defined ys)%nat.
Proof.
  unfold series_lt, defined. revert ys.
  induction xs as [|x xs IH]; intros ys.
  - apply Nat.le_0_l.
  - destruct ys as [|y ys]; [apply Nat.le_0_l|].
    specialize (IH ys). simpl in *.
    destruct y as [| | |q]; simpl in *; try lia.
    destruct (Qltb x q); lia.
Qed.

(** Dropping the last [k] rows of [n ++ b], where [n] holds no number. *)
Lemma defined_drop_last k n b :
  defined n = 0%nat ->
  (defined (drop_last_rows k (n ++ b)) <= length b - k)%nat.
Proof.
  intros Hn. unfold drop_last_rows. rewrite firstn_app, defined_app.
  pose proof (defined_firstn (length (n ++ b) - k) n) as Ha.
  pose proof (defined_le_length
                (firstn (length (n ++ b) - k - length n) b)) as Hb.
  rewrite length_firstn in Hb. rewrite length_app in *. lia.
Qed.

(* ===================================================================== *)
(** * Facts about moving averages *)
(* ===================================================================== *)

Lemma length_MA closes w : length (MA closes w) = length closes.
Proof. unfold MA. rewrite length_map, length_seq. reflexivity. Qed.

(** The look-back prefix is undefined and everything after it is a number. *)
Lemma MA_shape closes w :
  exists b,
    MA closes w = repeat NaN (Nat.min (length closes) (w - 1)) ++ b /\
    length b = (length closes - (w - 1))%nat /\
    Forall is_fin b.
Proof.
  unfold MA. set (f := fun i : nat => _).
  set (n := length closes). set (k := Nat.min n (w - 1)).
  exists (map f (seq k (n - k))).
  replace (seq 0 n) with (seq 0 k ++ seq k (n - k)).
  2:{ pose proof (seq_app k (n - k) 0) as E. simpl in E. rewrite <- E.
      f_equal. subst k. lia. }
  rewrite map_app. repeat split.
  - f_equal. rewrite <- (length_seq k 0) at 2. rewrite <- map_const.
    apply map_ext_in. intros i Hi. apply in_seq in Hi. unfold f.
    destruct (Nat.ltb_spec (S i) w); [reflexivity | lia].
  - rewrite length_map, length_seq. lia.
  - apply Forall_map, Forall_forall. intros i Hi. apply in_seq in Hi.
    unfold f. destruct (Nat.ltb_spec (S i) w); [lia | exact I].
Qed.

(* ===================================================================== *)
(** * The trend-reversal detector *)
(* ===================================================================== *)

Lemma len_downtrend_days data :
  len (downtrend_days data) = (len data - 30 - (len data - 60))%nat.
Proof. windows. apply length_slice_neg. Qed.

Lemma len_before_break data :
  len (before_break data) = (Nat.min 30 (len data) - 5)%nat.
Proof.
  windows. rewrite length_drop_last_rows, length_last_rows. reflexivity.
Qed.

Lemma len_after_break data :
  len (after_break data) = Nat.min 5 (Nat.min 30 (len data)).
Proof. windows. rewrite !length_last_rows. reflexivity. Qed.

(** The verdict is true exactly when every gate lets the frame through. *)
Lemma check_ma_breakthrough_true data :
  fst (check_ma_breakthrough data) = true <->
  (len (downtrend_days data) <? 30)%nat = false /\
  ge (ma60_slope data) (of_Z 0) = false /\
  (len (before_break data) <? 10)%nat = false /\
  (len (after_break data) <? 5)%nat = false /\
  (below_ma250_before data <? 8)%nat = false /\
  (above_ma250_after data <? 3)%nat = false /\
  le (avg_volume_after data) (avg_volume_before data) = false.
Proof.
  unfold check_ma_breakthrough.
  destruct (len (downtrend_days data) <? 30)%nat;
    [simpl; intuition discriminate|].
  destruct (ge (ma60_slope data) (of_Z 0)); [simpl; intuition discriminate|].
  destruct (len (before_break data) <? 10)%nat;
    [simpl; intuition discriminate|].
  destruct (len (after_break data) <? 5)%nat;
    [simpl; intuition discriminate|].
  destruct (below_ma250_before data <? 8)%nat;
    [simpl; intuition discriminate|].
  destruct (above_ma250_after data <? 3)%nat;
    [simpl; intuition discriminate|].
  destruct (le (avg_volume_after data) (avg_volume_before data));
    simpl; intuition discriminate.
Qed.

(** The frame the caller is left with. *)
Lemma check_ma_breakthrough_frame data :
  snd (check_ma_breakthrough data) = data_with_MA60 data.
Proof.
  unfold check_ma_breakthrough.
  repeat match goal with
         | |- context [if ?c then _ else _] => destruct c
         end; reflexivity.
Qed.

(** With fewer than 262 bars, at most seven of the ten bars before the
    break have a defined MA250. *)
Lemma defined_before_short data :
  (len data < 262)%nat ->
  (defined (col_MA250 (select (fun _ => last_rows 10) (before_break data)))
   <= 7)%nat.
Proof.
  intros Hn.
  change (col_MA250 _) with
    (last_rows 10 (drop_last_rows 5 (last_rows 30 (MA (col_close data) 250)))).
  unfold last_rows at 1. etransitivity; [apply defined_skipn|].
  destruct (MA_shape (col_close data) 250) as (b & E & Hb & _).
  rewrite E. unfold last_rows. rewrite skipn_app.
  etransitivity; [apply defined_drop_last|].
  - match goal with
    | |- defined (skipn ?j ?n) = _ =>
        pose proof (defined_skipn j n) as H
    end.
    rewrite defined_repeat_NaN in H. lia.
  - rewrite length_skipn. unfold col_close in Hb.
    rewrite length_map in Hb. unfold len in Hn. lia.
Qed.

Lemma below_ma250_before_short data :
  (len data < 262)%nat -> (below_ma250_before data <= 7)%nat.
Proof.
  intros Hn. unfold below_ma250_before.
  etransitivity; [apply series_lt_defined|].
  apply defined_before_short. assumption.
Qed.

Lemma check_ma_breakthrough_short data :
  (len data < 262)%nat -> fst (check_ma_breakthrough data) = false.
Proof.
  intros Hn. apply not_true_is_false. intros Ht.
  apply check_ma_breakthrough_true in Ht.
  destruct Ht as (_ & _ & _ & _ & Hb & _).
  apply Nat.ltb_ge in Hb.
  pose proof (below_ma250_before_short data Hn). lia.
Qed.

(** Comparisons of float64 values. *)
Lemma lt_not_le x y : lt x y = true -> le y x = false.
Proof.
  destruct x, y; simpl; try discriminate; try reflexivity.
  unfold Qltb. intros H. apply negb_true_iff in H. exact H.
Qed.

Lemma eqb_le x y : Float.eqb x y = true -> le x y = true.
Proof.
  destruct x, y; simpl; try discriminate; try reflexivity.
  intros H. apply Qeq_bool_iff in H. apply Qle_bool_iff.
  rewrite H. apply Qle_refl.
Qed.

Lemma eqb_ge x y : Float.eqb x y = true -> ge x y = true.
Proof.
  destruct x, y; simpl; try discriminate; try reflexivity.
  intros H. apply Qeq_bool_iff in H. apply Qle_bool_iff.
  rewrite H. apply Qle_refl.
Qed.

Lemma fin_not_ge_lt x y :
  is_fin x -> is_fin y -> ge x y = false -> lt x y = true.
Proof.
  destruct x, y; simpl; try contradiction. intros _ _ H.
  unfold Qltb. rewrite H. reflexivity.
Qed.

(** Row selections keep a property that holds of every entry. *)
Lemma Forall_firstn_keep {A} (P : A -> Prop) k l :
  Forall P l -> Forall P (firstn k l).
Proof.
  intros H. rewrite <- (firstn_skipn k l) in H.
  apply Forall_app in H. tauto.
Qed.

Lemma Forall_skipn_keep {A} (P : A -> Prop) k l :
  Forall P l -> Forall P (skipn k l).
Proof.
  intros H. rewrite <- (firstn_skipn k l) in H.
  apply Forall_app in H. tauto.
Qed.

Lemma Forall_last {A} (P : A -> Prop) l d :
  Forall P l -> l <> [] -> P (last l d).
Proof.
  induction l as [|x l IH]; intros H Hne; [congruence|].
  inversion H; subst. destruct l as [|y l]; [assumption|].
  apply IH; [assumption | discriminate].
Qed.

(** A window that starts after the look-back prefix holds numbers only. *)
Lemma slice_neg_fin closes w a b :
  (w - 1 <= length closes - a)%nat ->
  Forall is_fin (slice_neg a b (MA closes w)).
Proof.
  intros Hw. unfold slice_neg. rewrite length_MA.
  destruct (MA_shape closes w) as (t & E & Ht & Hfin). rewrite E.
  set (j := (length closes - a)%nat). set (m := (length closes - b)%nat).
  destruct (Nat.le_gt_cases j m) as [Hjm|Hjm].
  - replace m with (j + (m - j))%nat by lia.
    rewrite <- firstn_skipn_comm, skipn_app.
    rewrite (skipn_all2 (n := j)) by (rewrite repeat_length; lia).
    apply Forall_firstn_keep, Forall_skipn_keep. assumption.
  - rewrite skipn_all2; [constructor|]. rewrite length_firstn. lia.
Qed.

Lemma ma60_slope_finite data :
  (119 <= len data)%nat -> exists q, ma60_slope data = Fin q.
Proof.
  intros Hn. unfold ma60_slope.
  set (s := col_MA60 (downtrend_days data)).
  assert (Hs : s = slice_neg 60 30 (MA (col_close data) 60)) by reflexivity.
  assert (Hlen : length s = 30%nat).
  { rewrite Hs, length_slice_neg, length_MA. unfold col_close.
    rewrite length_map. fold (len data). lia. }
  assert (Hfin : Forall is_fin s).
  { rewrite Hs. apply slice_neg_fin. unfold col_close.
    rewrite length_map. fold (len data). lia. }
  assert (Hne : s <> []) by (intros ->; discriminate).
  pose proof (Forall_last NaN Hfin Hne) as Hl.
  unfold iloc_last, iloc_first.
  destruct s as [|x0 s']; [congruence|].
  inversion Hfin as [|? ? Hx0 _]; subst.
  cbn [nth]. destruct (last (x0 :: s') NaN), x0; try contradiction.
  eexists. reflexivity.
Qed.

(** ** The claims about the detector *)

(** C2, as amended.  For every series of at least 250 bars whose MA60
    difference over the [-60,-30) window is strictly negative: if at least 8
    (in particular exactly 8) of the 10 bars before the break close strictly
    below MA250, at least 3 of the last 5 bars close strictly above it, and
    the mean volume of the last 5 bars strictly exceeds the mean volume of
    the 25 bars that precede them, then [check_ma_breakthrough] returns
    true. *)
Theorem breakthrough_minimal_pass data :
  (250 <= len data)%nat ->
  lt (ma60_slope data) (Fin 0) = true ->
  (8 <= below_ma250_before data)%nat ->
  (3 <= above_ma250_after data)%nat ->
  lt (avg_volume_before data) (avg_volume_after data) = true ->
  length (col_volume (before_break data)) = 25%nat /\
  fst (check_ma_breakthrough data) = true.
Proof.
  intros Hn Hslope Hbelow Habove Hvol. split.
  - unfold col_volume. rewrite length_map. fold (len (before_break data)).
    rewrite len_before_break. lia.
  - apply check_ma_breakthrough_true.
    rewrite len_downtrend_days, len_before_break, len_after_break.
    repeat split; try (apply Nat.ltb_ge; lia).
    + change (of_Z 0) with (Fin 0). unfold ge.
      apply lt_not_le. assumption.
    + apply lt_not_le. assumption.
Qed.

Lemma breakthrough_minimal_pass_witness :
  below_ma250_before reversal = 8%nat /\
  above_ma250_after reversal = 3%nat /\
  fst (check_ma_breakthrough reversal) = true.
Proof.
  split; [vm_compute; reflexivity|].
  split; [vm_compute; reflexivity|].
  apply (breakthrough_minimal_pass reversal).
  - apply Nat.leb_le. vm_compute. reflexivity.
  - vm_compute. reflexivity.
  - apply Nat.leb_le. vm_compute. reflexivity.
  - apply Nat.leb_le. vm_compute. reflexivity.
  - vm_compute. reflexivity.
Defined.

(** C2 as written fails: on [reversal_front_loaded] exactly 8 of the 10
    bars before the break are below MA250, 3 of the last 5 are above, the
    mean volume of the last 5 bars (150) exceeds that of the 10 bars before
    them (100), the MA60 difference is negative, and the detector returns
    false, because the 25-bar mean (640) is the one it compares with. *)
Lemma breakthrough_ten_bar_volume_counterexample :
  (250 <=? len reversal_front_loaded)%nat = true /\
  lt (ma60_slope reversal_front_loaded) (Fin 0) = true /\
  below_ma250_before reversal_front_loaded = 8%nat /\
  above_ma250_after reversal_front_loaded = 3%nat /\
  lt (spec_avg_volume_before10 reversal_front_loaded)
     (avg_volume_after reversal_front_loaded) = true /\
  fst (check_ma_breakthrough reversal_front_loaded) = false.
Proof. repeat split; vm_compute; reflexivity. Qed.

(** C3, as amended.  [check_ma_breakthrough] returns a boolean that depends
    on the bars alone, and leaves every bar of the caller's series as it
    was; but it does change the caller's frame: on return the frame carries
    the two derived columns MA250 and MA60, newly added or overwritten. *)
Theorem check_ma_breakthrough_effect data :
  let r := check_ma_breakthrough data in
  bars (snd r) = bars data /\
  MA250 (snd r) = Some (MA (col_close data) 250) /\
  MA60 (snd r) = Some (MA (col_close data) 60) /\
  fst r = fst (check_ma_breakthrough (mkFrame (bars data) None None)).
Proof.
  cbv zeta. rewrite check_ma_breakthrough_frame.
  split; [reflexivity|]. split; [reflexivity|]. split; reflexivity.
Qed.

(** C3 as written fails: a three-bar frame without derived columns comes
    back with both of them. *)
Lemma check_ma_breakthrough_mutates_counterexample :
  let data := mk_series 3 reversal_price volume_flat in
  MA250 data = None /\
  MA250 (snd (check_ma_breakthrough data)) = Some [NaN; NaN; NaN] /\
  snd (check_ma_breakthrough data) <> data.
Proof.
  cbv zeta. split; [reflexivity|]. split; [reflexivity|].
  intros H. apply (f_equal MA250) in H. discriminate H.
Qed.

(** C5.  For every series of fewer than 262 bars, MA250 is defined on at
    most 7 of the 10 bars before the break, a bar with an undefined MA250
    never counts as below it, and so [check_ma_breakthrough] returns false
    whatever the prices and volumes are. *)
Theorem short_history_fails data :
  (len data < 262)%nat ->
  let window := select (fun _ => last_rows 10) (before_break data) in
  (defined (col_MA250 window) <= 7)%nat /\
  (below_ma250_before data <= defined (col_MA250 window))%nat /\
  fst (check_ma_breakthrough data) = false.
Proof.
  intros Hn window. split; [|split].
  - apply defined_before_short. assumption.
  - apply series_lt_defined.
  - apply check_ma_breakthrough_short. assumption.
Qed.

Lemma short_history_fails_witness :
  len reversal_261 = 261%nat /\
  fst (check_ma_breakthrough reversal_261) = false.
Proof.
  split; [vm_compute; reflexivity|].
  apply (short_history_fails reversal_261).
  apply Nat.ltb_lt. vm_compute. reflexivity.
Defined.

(** C8.  For every series of at least 250 bars the MA60 difference over the
    [-60,-30) window is a number; if it is exactly zero the detector returns
    false; and the prior-downtrend gate lets the series through exactly
    when the difference is strictly negative. *)
Theorem zero_slope_fails data :
  (250 <= len data)%nat ->
  (exists q, ma60_slope data = Fin q) /\
  (Float.eqb (ma60_slope data) (Fin 0) = true ->
   fst (check_ma_breakthrough data) = false) /\
  (ge (ma60_slope data) (of_Z 0) = false <->
   lt (ma60_slope data) (Fin 0) = true) /\
  (fst (check_ma_breakthrough data) = true ->
   lt (ma60_slope data) (Fin 0) = true).
Proof.
  intros Hn.
  destruct (ma60_slope_finite data) as [q Hq]; [lia|].
  assert (Hiff : ge (ma60_slope data) (of_Z 0) = false <->
                 lt (ma60_slope data) (Fin 0) = true).
  { rewrite Hq. change (of_Z 0) with (Fin 0). split.
    - apply fin_not_ge_lt; exact I.
    - apply lt_not_le. }
  split; [eauto|]. split; [|split; [exact Hiff|]].
  - intros Hz. apply not_true_is_false. intros Ht.
    apply check_ma_breakthrough_true in Ht.
    destruct Ht as (_ & Hge & _).
    apply eqb_ge in Hz. change (of_Z 0) with (Fin 0) in Hge.
    congruence.
  - intros Ht. apply check_ma_breakthrough_true in Ht. tauto.
Qed.

Lemma zero_slope_fails_witness :
  Float.eqb (ma60_slope sideways) (Fin 0) = true /\
  fst (check_ma_breakthrough sideways) = false.
Proof.
  split; [vm_compute; reflexivity|].
  apply (zero_slope_fails sideways).
  - apply Nat.leb_le. vm_compute. reflexivity.
  - vm_compute. reflexivity.
Defined.

(** C9, as amended.  The window the after-volume is compared with is the
    25 bars that precede the last 5 (the recent 30 bars without the last
    5).  If the mean volume of the last 5 bars equals the mean volume of
    those 25 bars, [check_ma_breakthrough] returns false. *)
Theorem volume_tie_fails data :
  (30 <= len data)%nat ->
  Float.eqb (avg_volume_after data) (avg_volume_before data) = true ->
  length (col_volume (before_break data)) = 25%nat /\
  length (col_volume (after_break data)) = 5%nat /\
  fst (check_ma_breakthrough data) = false.
Proof.
  intros Hn Htie. unfold col_volume. rewrite !length_map.
  fold (len (before_break data)) (len (after_break data)).
  rewrite len_before_break, len_after_break.
  split; [lia|]. split; [lia|].
  apply not_true_is_false. intros Ht.
  apply check_ma_breakthrough_true in Ht.
  destruct Ht as (_ & _ & _ & _ & _ & _ & Hle).
  apply eqb_le in Htie. congruence.
Qed.

Lemma volume_tie_fails_witness :
  fst (check_ma_breakthrough reversal_flat_volume) = false.
Proof.
  apply (volume_tie_fails reversal_flat_volume).
  - apply Nat.leb_le. vm_compute. reflexivity.
  - vm_compute. reflexivity.
Defined.

(** C9 as written fails: on [reversal_back_loaded] the mean volume of the
    last 5 bars equals the mean volume of the 10 bars before them (200),
    and the detector returns true, because the 25-bar mean (86) is lower. *)
Lemma volume_tie_ten_bar_counterexample :
  Float.eqb (avg_volume_after reversal_back_loaded)
            (spec_avg_volume_before10 reversal_back_loaded) = true /\
  fst (check_ma_breakthrough reversal_back_loaded) = true.
Proof. split; vm_compute; reflexivity. Qed.

(* ===================================================================== *)
(** * The fundamental gates and the composite *)
(* ===================================================================== *)

(** What [absorbed] gives against any provider, in any state. *)
Lemma absorbed_run critical p :
  absorbed critical p ->
  forall P s,
  exists b, fst (run P p s) = Returned b /\
            (raised_in critical (snd (run P p s)) = true -> b = false).
Proof.
  induction p as [r|e|f k IH]; cbn [absorbed run]; intros H P s.
  - exists r. split; [reflexivity | discriminate].
  - contradiction.
  - destruct H as [Hx He]. destruct (respond P f s) as [[x|e] s'].
    + destruct (IH _ (Hx x) P s') as (b & Hb & Hr).
      destruct (run P (k (Returned x)) s') as [r log].
      exists b. split; [exact Hb | exact Hr].
    + specialize (He e). destruct (critical f) eqn:Hc.
      * rewrite He. exists false. split; reflexivity.
      * destruct (IH _ He P s') as (b & Hb & Hr).
        destruct (run P (k (Raised e)) s') as [r log].
        exists b. split; [exact Hb|]. cbn. rewrite Hc. exact Hr.
Qed.

Lemma check_financial_growth_absorbed code :
  absorbed any_fetch (check_financial_growth code).
Proof. unfold check_financial_growth, column, iloc0. crunch. Qed.

Lemma check_financial_ratios_absorbed current_year code data :
  absorbed not_the_quote (check_financial_ratios current_year code data).
Proof.
  unfold check_financial_ratios, live_quote, last_close, column, iloc0.
  crunch.
Qed.

Lemma check_absorbed current_year code_name data end_date :
  absorbed not_the_quote (check current_year code_name data end_date).
Proof.
  unfold check. destruct (len _ <? 250)%nat; [exact I|].
  destruct (check_ma_breakthrough _) as [[|] d]; [|exact I]. cbn [negb].
  unfold check_financial_growth, check_financial_ratios, live_quote,
    last_close, column, iloc0.
  crunch.
Qed.

(** Evaluation against a stateless provider, step by step. *)
Lemma eval_bind {A B} O (p : Prog A) (g : A -> Prog B) :
  eval O (bind_prog p g) =
  match eval O p with
  | Returned x => eval O (g x)
  | Raised e => Raised e
  end.
Proof.
  unfold eval. induction p as [r|e|f k IH]; cbn; try reflexivity.
  specialize (IH (O f)).
  destruct (run (stateless O) (bind_prog (k (O f)) g) tt).
  destruct (run (stateless O) (k (O f)) tt) as [[x|e] log]; cbn in *.
  - rewrite IH. reflexivity.
  - exact IH.
Qed.

Lemma eval_try_catch {A} O (p : Prog A) (h : exn -> Prog A) :
  eval O (try_catch p h) =
  match eval O p with
  | Returned x => Returned x
  | Raised e => eval O (h e)
  end.
Proof.
  unfold eval. induction p as [r|e|f k IH]; cbn; try reflexivity.
  specialize (IH (O f)).
  destruct (run (stateless O) (try_catch (k (O f)) h) tt).
  destruct (run (stateless O) (k (O f)) tt) as [[x|e] log]; cbn in *;
    exact IH.
Qed.

Lemma eval_call O f : eval O (call f) = O f.
Proof. unfold eval. cbn. destruct (O f); reflexivity. Qed.

Lemma eval_indicator O code :
  @eval (option IndicatorFrame) O
        (call (stock_financial_analysis_indicator code)) =
  O (stock_financial_analysis_indicator code).
Proof. exact (eval_call O (stock_financial_analysis_indicator code)). Qed.

Lemma eval_profit O code report :
  @eval (option ProfitFrame) O
        (call (stock_financial_report_sina code report)) =
  O (stock_financial_report_sina code report).
Proof. exact (eval_call O (stock_financial_report_sina code report)). Qed.

Lemma eval_dividend O code :
  @eval (option DividendFrame) O
        (call (stock_history_dividend_detail code)) =
  O (stock_history_dividend_detail code).
Proof. exact (eval_call O (stock_history_dividend_detail code)). Qed.

(** Comparisons of binary64 numbers, from their specification. *)
Lemma SFcompare_antisym x y :
  SFcompare y x = option_map CompOpp (SFcompare x y).
Proof.
  destruct x as [sx|sx| |sx mx ex], y as [sy|sy| |sy my ey]; try reflexivity;
    try (destruct sx; reflexivity); try (destruct sy; reflexivity);
    try (destruct sx, sy; reflexivity).
  unfold SFcompare, option_map.
  pose proof (Pos.compare_cont_antisym mx my Eq) as H. cbn [CompOpp] in H.
  rewrite <- H, (Z.compare_antisym ex ey).
  destruct sx, sy; try reflexivity;
    destruct (ex ?= ey)%Z; try reflexivity;
    destruct (Pos.compare_cont Eq mx my); reflexivity.
Qed.

Lemma not_nan_spec (x : float64) :
  PrimFloat.is_nan x = false -> Prim2SF x <> S754_nan.
Proof.
  unfold PrimFloat.is_nan. rewrite FloatAxioms.eqb_spec. intros H E.
  rewrite E in H.
  discriminate H.
Qed.

(** Between two numbers, [x < y] is the negation of [y <= x]. *)
Lemma ltb_not_leb (x y : float64) :
  PrimFloat.is_nan x = false -> PrimFloat.is_nan y = false ->
  (x <? y)%float = negb (y <=? x)%float.
Proof.
  intros Hx Hy. apply not_nan_spec in Hx, Hy.
  rewrite FloatAxioms.ltb_spec, FloatAxioms.leb_spec. unfold SFltb, SFleb.
  rewrite (SFcompare_antisym (Prim2SF x) (Prim2SF y)).
  destruct (SFcompare (Prim2SF x) (Prim2SF y)) as [[ | | ]|] eqn:E;
    try reflexivity.
  exfalso.
  destruct (Prim2SF x) as [| | |], (Prim2SF y) as [| | |];
    try discriminate E; congruence.
Qed.

(** ** The claims about the fundamental gates and the composite *)

(** C1, as amended.  Given the four quarterly net profits [-10, -5, 2, 8]
    ordered most-recent-first (older reports may follow), the
    profit-trajectory sub-check fails: the 'profit increasing' flag is
    cleared (already -10 <= -5), the turnaround branch does not apply (the
    oldest figure, 8, is not negative), and [check_financial_growth]
    returns false whatever the provider answers to the indicator fetch. *)
Theorem declining_profits_fail
        (O : forall f : fetch, Outcome (response f)) code pd older :
  O (stock_financial_report_sina code "利润表") = Returned (Some pd) ->
  net_profit_rows pd = ([-10; -5; 2; 8] ++ older)%float ->
  profit_increasing [-10; -5; 2; 8]%float = false /\
  profit_turning_positive [-10; -5; 2; 8]%float = false /\
  profit_trajectory (net_profit_rows pd) = false /\
  eval O (check_financial_growth code) = Returned false.
Proof.
  intros Hpd Hrows.
  assert (Ht : profit_trajectory (net_profit_rows pd) = false)
    by (rewrite Hrows; reflexivity).
  split; [reflexivity|]. split; [reflexivity|]. split; [exact Ht|].
  unfold check_financial_growth. monad.
  rewrite eval_try_catch, eval_bind, eval_indicator.
  destruct (O (stock_financial_analysis_indicator code)) as [[fd|]|e];
    try reflexivity.
  destruct (indicator_rows fd) as [|r rs]; [reflexivity|].
  cbn [empty]. destruct (has_roe fd); [|reflexivity].
  cbn [negb map iloc0]. monad. cbn [bind_prog].
  destruct (roe r <? 10)%float; [reflexivity|].
  rewrite eval_bind, eval_profit, Hpd, Ht.
  rewrite Hrows. cbn [empty app].
  destruct (has_net_profit pd); reflexivity.
Qed.

Lemma declining_profits_fail_witness :
  eval (answers [-10; -5; 2; 8]%float 1 quote_down)
       (check_financial_growth "600000") = Returned false.
Proof.
  apply (@declining_profits_fail
           (answers [-10; -5; 2; 8]%float 1 quote_down) "600000"
           (mkProfits true [-10; -5; 2; 8]%float) []);
    reflexivity.
Defined.

(** C1 as written fails: with ROE at 15 and the profit column
    [-10, -5, 2, 8], the flag does not stay true and the gate does not
    pass. *)
Lemma declining_profits_counterexample :
  profit_increasing [-10; -5; 2; 8]%float = false /\
  profit_trajectory [-10; -5; 2; 8]%float = false /\
  run (stateless (answers [-10; -5; 2; 8]%float 1 quote_down))
      (check_financial_growth "600000") tt =
  (Returned false,
   [mkEvent (stock_financial_analysis_indicator "600000") false;
    mkEvent (stock_financial_report_sina "600000" "利润表") false]).
Proof. repeat split; vm_compute; reflexivity. Qed.

(** The same four figures in the order the code expects, most recent
    first, do pass through the monotonic branch. *)
Example rising_profits_pass :
  profit_increasing [8; 2; -5; -10]%float = true /\
  profit_trajectory [8; 2; -5; -10]%float = true.
Proof. split; reflexivity. Qed.

(** C4.  For every series of fewer than 250 bars, [check] returns false
    (whatever the code, the cut-off date and the provider), and
    [check_ma_breakthrough] alone returns false as well. *)
Theorem insufficient_history current_year code_name data end_date :
  (len data < 250)%nat ->
  check current_year code_name data end_date = Ret false /\
  (forall P s,
      run P (check current_year code_name data end_date) s
      = (Returned false, [])) /\
  fst (check_ma_breakthrough data) = false.
Proof.
  intros Hn.
  assert (Hc : check current_year code_name data end_date = Ret false).
  { unfold check.
    assert (Hu : (len (until end_date data) <= len data)%nat).
    { destruct end_date as [d|]; [|apply Nat.le_refl].
      unfold until, len, select. cbn [bars]. apply length_by_mask. }
    destruct (Nat.ltb_spec (len (until end_date data)) 250);
      [reflexivity | lia]. }
  split; [exact Hc|]. split.
  - intros P s. rewrite Hc. reflexivity.
  - apply check_ma_breakthrough_short. lia.
Qed.

Lemma insufficient_history_witness :
  check 2026 ("600000", "name") reversal_249 None = Ret false /\
  fst (check_ma_breakthrough reversal_249) = false.
Proof.
  destruct (insufficient_history 2026 ("600000", "name") reversal_249 None)
    as (Hc & _ & Hd).
  - apply Nat.ltb_lt. vm_compute. reflexivity.
  - split; [exact Hc | exact Hd].
Defined.

(** C6, as amended.  Against every provider, in every state and whatever
    it returns or raises, [check_financial_growth] and
    [check_financial_ratios] (and so [check]) end by returning a boolean
    and never by raising.  The result is false whenever a fetch of the
    indicators, of the profit statement or of the dividend history raised.
    An error of the live-quote fetch alone is swallowed: the price falls
    back to the last close and the result may be true. *)
Theorem fetch_errors_absorbed P s current_year code_name data end_date :
  let code := fst code_name in
  (exists b,
      fst (run P (check_financial_growth code) s) = Returned b /\
      (raised_in any_fetch (snd (run P (check_financial_growth code) s))
       = true -> b = false)) /\
  (exists b,
      fst (run P (check_financial_ratios current_year code data) s)
      = Returned b /\
      (raised_in not_the_quote
         (snd (run P (check_financial_ratios current_year code data) s))
       = true -> b = false)) /\
  (exists b,
      fst (run P (check current_year code_name data end_date) s)
      = Returned b /\
      (raised_in not_the_quote
         (snd (run P (check current_year code_name data end_date) s))
       = true -> b = false)).
Proof.
  cbv zeta. split; [|split].
  - apply absorbed_run, check_financial_growth_absorbed.
  - apply absorbed_run, check_financial_ratios_absorbed.
  - apply absorbed_run, check_absorbed.
Qed.

(** C6 as written fails in its "false on error": the quote fetch raises,
    and [check_financial_ratios] returns true (one dividend of 1 against a
    last close of 10 is a yield of 10%). *)
Lemma quote_error_counterexample :
  run (stateless (answers [] 1 quote_down))
      (check_financial_ratios 2026 "600000" sideways) tt =
  (Returned true,
   [mkEvent (stock_financial_analysis_indicator "600000") false;
    mkEvent (stock_history_dividend_detail "600000") false;
    mkEvent stock_zh_a_spot_em true]).
Proof. vm_compute. reflexivity. Qed.

(** C7.  Whenever [check_ma_breakthrough] returns false on the series
    [check] hands it (the input cut at the optional end date), [check] is
    the computation that returns false at once: no provider fetch is made,
    and any two providers, in any states, see the same result and the same
    empty fetch log. *)
Theorem trend_gate_short_circuits current_year code_name data end_date :
  fst (check_ma_breakthrough (until end_date data)) = false ->
  check current_year code_name data end_date = Ret false /\
  forall P1 s1 P2 s2,
    run P1 (check current_year code_name data end_date) s1
    = (Returned false, []) /\
    run P2 (check current_year code_name data end_date) s2
    = run P1 (check current_year code_name data end_date) s1.
Proof.
  intros Hf.
  assert (Hc : check current_year code_name data end_date = Ret false).
  { unfold check. destruct (len (until end_date data) <? 250)%nat;
      [reflexivity|].
    destruct (check_ma_breakthrough (until end_date data)) as [b d].
    cbn in Hf. subst b. reflexivity. }
  split; [exact Hc|]. intros P1 s1 P2 s2. rewrite Hc. split; reflexivity.
Qed.

Lemma trend_gate_short_circuits_witness :
  run (stateless (answers [8; 2; -5; -10]%float 1 quote_down))
      (check 2026 ("600000", "name") sideways None) tt
  = (Returned false, []).
Proof.
  destruct (trend_gate_short_circuits 2026 ("600000", "name") sideways None)
    as [_ H].
  - vm_compute. reflexivity.
  - apply (H (stateless (answers [8; 2; -5; -10]%float 1 quote_down)) tt
             (stateless (answers [] 1 quote_down)) tt).
Defined.

Lemma eval_spot O :
  @eval (option SpotFrame) O (call stock_zh_a_spot_em) =
  O stock_zh_a_spot_em.
Proof. exact (eval_call O stock_zh_a_spot_em). Qed.

(** The look-up of lines 179-186 yields the live quote of the provider's
    answer. *)
Lemma eval_live_quote O code :
  eval O (live_quote code) =
  Returned (spec_live_quote (O stock_zh_a_spot_em) code).
Proof.
  unfold live_quote, spec_live_quote, column, iloc0. monad.
  rewrite eval_try_catch, eval_bind, eval_spot.
  destruct (O stock_zh_a_spot_em) as [[table|]|e]; try reflexivity.
  destruct (has_code table); cbn [bind_prog andb].
  - destruct (filter (fun r => String.eqb (spot_code r) code)
                     (spot_rows table)) as [|r rows];
      cbn [empty]; [reflexivity|].
    destruct (has_latest table); reflexivity.
  - destruct (filter _ _); reflexivity.
Qed.

Lemma eqb_leb (x y : float64) :
  (x =? y)%float = true -> (y <=? x)%float = true.
Proof.
  rewrite FloatAxioms.eqb_spec, FloatAxioms.leb_spec. unfold SFeqb, SFleb.
  rewrite (SFcompare_antisym (Prim2SF x) (Prim2SF y)).
  destruct (SFcompare (Prim2SF x) (Prim2SF y)) as [[ | | ]|];
    try discriminate; reflexivity.
Qed.

(** The end of [check_financial_ratios], from the yield on. *)
Lemma eval_check_financial_ratios_yield
      (O : forall f : fetch, Outcome (response f))
      current_year code data bd r rs dd price :
  O (stock_financial_analysis_indicator code) = Returned (Some bd) ->
  indicator_rows bd = r :: rs ->
  has_debt_ratio bd = true ->
  (20 <? debt_ratio r)%float = false ->
  O (stock_history_dividend_detail code) = Returned (Some dd) ->
  has_year dd = true ->
  has_amount dd = true ->
  dividends_since (current_year - 1) (dividend_rows dd) <> [] ->
  quote_or_last_close (spec_live_quote (O stock_zh_a_spot_em) code) data
  = Some price ->
  eval O (check_financial_ratios current_year code data) =
  Returned
    (negb (dividend_yield
             (series_sum (map amount
                              (dividends_since (current_year - 1)
                                               (dividend_rows dd))))
             price <? 3)%float).
Proof.
  intros Hbd Hrows Hdebt Hle Hdd Hyear Hamount Hrecent Hprice.
  unfold check_financial_ratios. monad.
  rewrite eval_try_catch, eval_bind, eval_indicator, Hbd, Hrows.
  cbn [empty map iloc0]. rewrite Hdebt. cbn [negb]. monad.
  cbn [bind_prog].
  rewrite Hle, eval_try_catch, eval_bind, eval_dividend, Hdd.
  destruct (dividend_rows dd) as [|d ds] eqn:Hds;
    [contradiction Hrecent; reflexivity|].
  cbn [empty]. rewrite Hyear, Hamount. unfold column. monad.
  cbn [bind_prog].
  destruct (dividends_since (current_year - 1) (d :: ds)) as [|d' ds'];
    [contradiction Hrecent; reflexivity|].
  cbn [length Nat.eqb]. rewrite eval_bind, eval_live_quote, eval_bind.
  assert (Hp : eval O match spec_live_quote (O stock_zh_a_spot_em) code with
                      | Some p => Ret p
                      | None => last_close data
                      end = Returned price).
  { unfold quote_or_last_close, last_close in *.
    destruct (spec_live_quote (O stock_zh_a_spot_em) code) as [p|].
    - inversion Hprice. reflexivity.
    - destruct (rev (col_close data)); [discriminate|].
      inversion Hprice. reflexivity. }
  rewrite Hp.
  destruct (dividend_yield _ _ <? 3)%float; reflexivity.
Qed.

(** C10, as amended.  When [check_financial_ratios] gets as far as the
    dividend yield (indicators present with a debt ratio that is not above
    20, dividend history present with at least one record dated in the
    previous year or later), the yield is computed in float64 as the sum
    of the qualifying amounts divided by the latest price, times 100,
    where the latest price is the live quote when the provider gives one
    and else the last close of the series.  Whenever that computed value
    is a number (not NaN) the function returns true if and only if the
    value is at least 3; in particular a computed yield of exactly 3.0
    passes. *)
Theorem dividend_yield_threshold
        (O : forall f : fetch, Outcome (response f))
        current_year code data bd r rs dd price :
  O (stock_financial_analysis_indicator code) = Returned (Some bd) ->
  indicator_rows bd = r :: rs ->
  has_debt_ratio bd = true ->
  (20 <? debt_ratio r)%float = false ->
  O (stock_history_dividend_detail code) = Returned (Some dd) ->
  has_year dd = true ->
  has_amount dd = true ->
  dividends_since (current_year - 1) (dividend_rows dd) <> [] ->
  quote_or_last_close (spec_live_quote (O stock_zh_a_spot_em) code) data
  = Some price ->
  PrimFloat.is_nan
    (dividend_yield
       (series_sum (map amount
                        (dividends_since (current_year - 1)
                                         (dividend_rows dd))))
       price) = false ->
  exists total,
    total = series_sum (map amount
                            (dividends_since (current_year - 1)
                                             (dividend_rows dd))) /\
    dividend_yield total price = (total / price * 100)%float /\
    (eval O (check_financial_ratios current_year code data) = Returned true
     <-> (3 <=? dividend_yield total price)%float = true) /\
    (eval O (check_financial_ratios current_year code data) = Returned false
     <-> (dividend_yield total price <? 3)%float = true) /\
    ((dividend_yield total price =? 3)%float = true ->
     eval O (check_financial_ratios current_year code data) = Returned true).
Proof.
  intros Hbd Hrows Hdebt Hle Hdd Hyear Hamount Hrecent Hprice Hnum.
  eexists. split; [reflexivity|].
  set (total := series_sum _) in *.
  rewrite (@eval_check_financial_ratios_yield
             O current_year code data bd r rs dd price
             Hbd Hrows Hdebt Hle Hdd Hyear Hamount Hrecent Hprice).
  fold total.
  assert (Hlt : (dividend_yield total price <? 3)%float =
                negb (3 <=? dividend_yield total price)%float)
    by (apply ltb_not_leb; [exact Hnum | reflexivity]).
  split; [reflexivity|]. split; [|split].
  - rewrite Hlt, negb_involutive.
    split; [intros H; injection H as H; exact H | intros ->; reflexivity].
  - split; [intros H; injection H as H | intros H; f_equal];
      apply negb_false_iff; exact H.
  - intros Heq. apply eqb_leb in Heq. rewrite Hlt, Heq. reflexivity.
Qed.

(** The live quote is used when there is one (a dividend of 1 on a quote of
    100 yields 1% and fails, although it is 10% of the last close), the
    last close is used when there is none, and a yield of exactly 3.0
    passes (a dividend of 0.3 on a last close of 10). *)
Lemma dividend_yield_threshold_witness :
  eval (answers [] 1 (quote_at "600000" 100))
       (check_financial_ratios 2026 "600000" sideways) = Returned false /\
  eval (answers [] 1 quote_down)
       (check_financial_ratios 2026 "600000" sideways) = Returned true /\
  eval (answers [] 0x1.3333333333333p-2 quote_down)
       (check_financial_ratios 2026 "600000" sideways) = Returned true.
Proof.
  split; [|split].
  - destruct (@dividend_yield_threshold
                (answers [] 1 (quote_at "600000" 100)) 2026 "600000"
                sideways healthy_indicators (mkIndicator 15 10) []
                (mkDividends true true [mkDividend 2026 1]) 100)
      as (total & Ht & _ & _ & Hfalse & _);
      [ reflexivity | reflexivity | reflexivity | reflexivity
      | reflexivity | reflexivity | reflexivity | discriminate
      | reflexivity | reflexivity | ].
    apply Hfalse. rewrite Ht. reflexivity.
  - destruct (@dividend_yield_threshold
                (answers [] 1 quote_down) 2026 "600000"
                sideways healthy_indicators (mkIndicator 15 10) []
                (mkDividends true true [mkDividend 2026 1]) 10)
      as (total & Ht & _ & Htrue & _ & _);
      [ reflexivity | reflexivity | reflexivity | reflexivity
      | reflexivity | reflexivity | reflexivity | discriminate
      | reflexivity | reflexivity | ].
    apply Htrue. rewrite Ht. reflexivity.
  - destruct (@dividend_yield_threshold
                (answers [] 0x1.3333333333333p-2 quote_down) 2026 "600000"
                sideways healthy_indicators (mkIndicator 15 10) []
                (mkDividends true true
                             [mkDividend 2026 0x1.3333333333333p-2]) 10)
      as (total & Ht & _ & _ & _ & Hexact);
      [ reflexivity | reflexivity | reflexivity | reflexivity
      | reflexivity | reflexivity | reflexivity | discriminate
      | reflexivity | reflexivity | ].
    apply Hexact. rewrite Ht. reflexivity.
Defined.

(** C10 as written fails: with a dividend of 0 and a quote of 0 the yield
    is 0/0, not a number and so not at least 3, and the function returns
    true. *)
Lemma dividend_yield_nan_counterexample :
  dividend_yield (series_sum [0%float]) 0 = nan /\
  (3 <=? dividend_yield (series_sum [0%float]) 0)%float = false /\
  eval (answers [] 0 (quote_at "600000" 0))
       (check_financial_ratios 2026 "600000" sideways) = Returned true.
Proof. repeat split; vm_compute; reflexivity. Qed.

(** Line 193 rounds twice.  The float 0.3 on a price of 10 yields exactly
    3.0 and passes; 0.282 on 9.4, which is 3% in decimal, yields
    2.9999999999999996 and fails. *)
Example yield_is_rounded :
  dividend_yield 0x1.3333333333333p-2 10 = 3%float /\
  dividend_yield 0x1.20c49ba5e353fp-2 0x1.2cccccccccccdp+3
  = 0x1.7ffffffffffffp+1%float /\
  eval (answers [] 0x1.20c49ba5e353fp-2
                (quote_at "600000" 0x1.2cccccccccccdp+3))
       (check_financial_ratios 2026 "600000" sideways) = Returned false.
Proof. repeat split; vm_compute; reflexivity. Qed.

(* ===================================================================== *)
(** * Further properties of the detector *)
(* ===================================================================== *)

Lemma last_rows_map {A B} (f : A -> B) n l :
  last_rows n (map f l) = map f (last_rows n l).
Proof. unfold last_rows. rewrite length_map, skipn_map. reflexivity. Qed.

Lemma drop_last_rows_map {A B} (f : A -> B) n l :
  drop_last_rows n (map f l) = map f (drop_last_rows n l).
Proof. unfold drop_last_rows. rewrite length_map, firstn_map. reflexivity. Qed.

Lemma len_col_close data : len data = length (col_close data).
Proof. unfold len, col_close. rewrite length_map. reflexivity. Qed.

(** The quantities the gates look at, as functions of the closing prices
    and of the volumes of the recent 30 bars. *)
Lemma ma60_slope_closes data :
  ma60_slope data =
  sub (iloc_last (slice_neg 60 30 (MA (col_close data) 60)))
      (iloc_first (slice_neg 60 30 (MA (col_close data) 60))).
Proof. reflexivity. Qed.

Lemma below_ma250_before_closes data :
  below_ma250_before data =
  sum_bool
    (series_lt
       (last_rows 10 (drop_last_rows 5 (last_rows 30 (col_close data))))
       (last_rows 10 (drop_last_rows 5
                        (last_rows 30 (MA (col_close data) 250))))).
Proof.
  unfold below_ma250_before, col_close. windows.
  rewrite !last_rows_map, drop_last_rows_map, last_rows_map. reflexivity.
Qed.

Lemma above_ma250_after_closes data :
  above_ma250_after data =
  sum_bool
    (series_gt
       (last_rows 5 (last_rows 30 (col_close data)))
       (last_rows 5 (last_rows 30 (MA (col_close data) 250)))).
Proof.
  unfold above_ma250_after, col_close. windows.
  rewrite !last_rows_map. reflexivity.
Qed.

Lemma avg_volume_before_recent data :
  avg_volume_before data =
  mean (drop_last_rows 5 (last_rows 30 (col_volume data))).
Proof.
  unfold avg_volume_before, col_volume. windows.
  rewrite last_rows_map, drop_last_rows_map. reflexivity.
Qed.

Lemma avg_volume_after_recent data :
  avg_volume_after data =
  mean (last_rows 5 (last_rows 30 (col_volume data))).
Proof.
  unfold avg_volume_after, col_volume. windows.
  rewrite !last_rows_map. reflexivity.
Qed.

(** The whole outcome is a function of the bars. *)
Lemma check_ma_breakthrough_bars data :
  check_ma_breakthrough data =
  check_ma_breakthrough (mkFrame (bars data) None None).
Proof.
  rewrite (surjective_pairing (check_ma_breakthrough data)).
  rewrite (surjective_pairing
             (check_ma_breakthrough (mkFrame (bars data) None None))).
  rewrite !check_ma_breakthrough_frame. reflexivity.
Qed.

(** X1.  Once the guard of line 56 lets a series through, the series has
    at least 60 bars, the window before the break has exactly 25 rows and
    the window after it exactly 5: the guard of line 69 never fires. *)
Theorem second_length_guard_is_dead data :
  (len (downtrend_days data) <? 30)%nat = false ->
  (60 <= len data)%nat /\
  len (before_break data) = 25%nat /\
  len (after_break data) = 5%nat /\
  ((len (before_break data) <? 10)%nat
   || (len (after_break data) <? 5)%nat)%bool = false.
Proof.
  intros H. apply Nat.ltb_ge in H. rewrite len_downtrend_days in H.
  assert (Hn : (60 <= len data)%nat) by lia.
  rewrite len_before_break, len_after_break.
  replace (Nat.min 30 (len data)) with 30%nat by lia.
  split; [exact Hn|]. split; [reflexivity|]. split; reflexivity.
Qed.

Lemma second_length_guard_is_dead_witness :
  len (before_break sideways) = 25%nat /\
  len (after_break sideways) = 5%nat.
Proof.
  destruct (second_length_guard_is_dead sideways) as (_ & Hb & Ha & _).
  - vm_compute. reflexivity.
  - split; [exact Hb | exact Ha].
Defined.

(** X2.  A series of 60 to 118 bars passes the guard of line 56, but its
    MA60 is still undefined at the first row of the downtrend window: the
    slope is NaN, [NaN >= 0] is false, and the prior-downtrend test of
    line 61 lets the series through whatever its prices are. *)
Theorem young_series_slope_is_nan data :
  (60 <= len data)%nat ->
  (len data < 119)%nat ->
  (len (downtrend_days data) <? 30)%nat = false /\
  ma60_slope data = NaN /\
  ge (ma60_slope data) (of_Z 0) = false.
Proof.
  intros Hlo Hhi.
  assert (Hs : ma60_slope data = NaN).
  { rewrite ma60_slope_closes. unfold iloc_first, slice_neg.
    rewrite nth_skipn, nth_firstn, length_MA, <- len_col_close.
    destruct (Nat.ltb_spec (len data - 60 + 0) (len data - 30)); [|lia].
    destruct (MA_shape (col_close data) 60) as (b & E & _).
    rewrite E, <- len_col_close, app_nth1
      by (rewrite repeat_length; lia).
    rewrite nth_repeat.
    destruct (iloc_last _); reflexivity. }
  split; [|split].
  - apply Nat.ltb_ge. rewrite len_downtrend_days. lia.
  - exact Hs.
  - rewrite Hs. reflexivity.
Qed.

Lemma young_series_slope_is_nan_witness :
  ma60_slope young = NaN /\ ge (ma60_slope young) (of_Z 0) = false.
Proof.
  destruct (young_series_slope_is_nan young) as (_ & Hs & Hg).
  - apply Nat.leb_le. vm_compute. reflexivity.
  - apply Nat.ltb_lt. vm_compute. reflexivity.
  - split; [exact Hs | exact Hg].
Defined.

(** X3.  Evaluating the detector again on the frame it has augmented gives
    the same verdict and leaves that frame as it is. *)
Theorem check_ma_breakthrough_again data :
  check_ma_breakthrough (snd (check_ma_breakthrough data)) =
  check_ma_breakthrough data.
Proof.
  rewrite (check_ma_breakthrough_bars (snd (check_ma_breakthrough data))).
  rewrite check_ma_breakthrough_frame.
  change (bars (data_with_MA60 data)) with (bars data).
  symmetry. apply check_ma_breakthrough_bars.
Qed.

(** X4.  The verdict reads the closing prices and the volumes of the
    recent 30 bars, and nothing else: two frames that agree on these get
    the same verdict, whatever their dates, their older volumes and their
    derived columns are. *)
Theorem verdict_reads_closes_and_recent_volumes d1 d2 :
  col_close d1 = col_close d2 ->
  last_rows 30 (col_volume d1) = last_rows 30 (col_volume d2) ->
  fst (check_ma_breakthrough d1) = fst (check_ma_breakthrough d2).
Proof.
  intros Hc Hv. apply eq_true_iff_eq.
  rewrite !check_ma_breakthrough_true.
  rewrite !len_downtrend_days, !len_before_break, !len_after_break.
  rewrite !ma60_slope_closes, !below_ma250_before_closes,
    !above_ma250_after_closes, !avg_volume_before_recent,
    !avg_volume_after_recent, !len_col_close.
  rewrite Hc, Hv. reflexivity.
Qed.

Lemma verdict_reads_closes_and_recent_volumes_witness :
  fst (check_ma_breakthrough reversal_redated) =
  fst (check_ma_breakthrough reversal).
Proof.
  apply (verdict_reads_closes_and_recent_volumes reversal_redated reversal).
  - vm_compute. reflexivity.
  - vm_compute. reflexivity.
Defined.

(* ===================================================================== *)
(** * Further properties of the composite *)
(* ===================================================================== *)

Lemma by_mask_filter {A} (p : A -> bool) (l : list A) :
  by_mask (map p l) l = filter p l.
Proof.
  unfold by_mask. induction l as [|a l IH]; [reflexivity|].
  cbn. destruct (p a); cbn; rewrite IH; reflexivity.
Qed.

Lemma bars_until d data :
  bars (until (Some d) data) =
  filter (fun b => (date b <=? d)%Z) (bars data).
Proof. unfold until, select. cbn [bars]. apply by_mask_filter. Qed.

(** [check] is a function of the bars that survive the cut. *)
Lemma check_bars current_year code_name d1 e1 d2 e2 :
  bars (until e1 d1) = bars (until e2 d2) ->
  check current_year code_name d1 e1 = check current_year code_name d2 e2.
Proof.
  intros H. unfold check.
  rewrite (check_ma_breakthrough_bars (until e1 d1)).
  rewrite (check_ma_breakthrough_bars (until e2 d2)).
  unfold len. rewrite H. reflexivity.
Qed.

(** X5.  The cut at [end_date] keeps exactly the bars dated [end_date] or
    earlier, in their order, and [check] never looks past it: two
    histories that agree up to [end_date] are evaluated by the very same
    computation, whatever bars follow and whatever derived columns the
    frames carry. *)
Theorem check_never_looks_ahead current_year code_name d1 d2 end_date :
  filter (fun b => (date b <=? end_date)%Z) (bars d1) =
  filter (fun b => (date b <=? end_date)%Z) (bars d2) ->
  bars (until (Some end_date) d1) =
  filter (fun b => (date b <=? end_date)%Z) (bars d1) /\
  check current_year code_name d1 (Some end_date) =
  check current_year code_name d2 (Some end_date).
Proof.
  intros H. split; [apply bars_until|].
  apply check_bars. rewrite !bars_until. exact H.
Qed.

Lemma check_never_looks_ahead_witness :
  check 2026 ("600000", "name") reversal_with_future (Some 299%Z) =
  check 2026 ("600000", "name") reversal (Some 299%Z).
Proof.
  apply (check_never_looks_ahead 2026 ("600000", "name")
           reversal_with_future reversal 299).
  vm_compute. reflexivity.
Defined.

Lemma eval_absorbed critical O (p : Prog bool) :
  absorbed critical p -> exists b, eval O p = Returned b.
Proof.
  intros H.
  destruct (absorbed_run critical p H (stateless O) tt) as (b & Hb & _).
  exists b. exact Hb.
Qed.

(** X6.  Against a provider with fixed answers, [check] returns true
    exactly when the series cut at [end_date] has at least 250 bars, the
    detector passes on it, [check_financial_growth] returns true, and
    [check_financial_ratios] returns true on the frame the detector has
    augmented. *)
Theorem check_passes_iff O current_year code_name data end_date :
  eval O (check current_year code_name data end_date) = Returned true <->
  (250 <= len (until end_date data))%nat /\
  fst (check_ma_breakthrough (until end_date data)) = true /\
  eval O (check_financial_growth (fst code_name)) = Returned true /\
  eval O (check_financial_ratios
            current_year (fst code_name)
            (snd (check_ma_breakthrough (until end_date data))))
  = Returned true.
Proof.
  unfold check.
  destruct (Nat.ltb_spec (len (until end_date data)) 250) as [Hn|Hn].
  { split; [discriminate | intros (H & _); lia]. }
  destruct (check_ma_breakthrough (until end_date data)) as [b d].
  cbn [fst snd].
  destruct b; cbn [negb];
    [| split; [discriminate | intros (_ & H & _); discriminate H]].
  monad. rewrite eval_bind.
  destruct (@eval_absorbed _ O _
              (check_financial_growth_absorbed (fst code_name)))
    as [g Hg].
  rewrite Hg.
  destruct g; cbn [negb];
    [| split; [discriminate | intros (_ & _ & H & _); discriminate H]].
  rewrite eval_bind.
  destruct (@eval_absorbed _ O _
              (check_financial_ratios_absorbed
                 current_year (fst code_name) d)) as [r Hr].
  rewrite Hr.
  destruct r; cbn [negb].
  - split; [intros _; repeat split; assumption | reflexivity].
  - split; [discriminate | intros (_ & _ & _ & H); discriminate H].
Qed.

Lemma fetches_at_most_run {R} n (p : Prog R) :
  fetches_at_most n p ->
  forall P s, (length (snd (run P p s)) <= n)%nat.
Proof.
  revert n. induction p as [r|e|f k IH]; intros n H P s;
    cbn [run snd length]; try apply Nat.le_0_l.
  destruct n as [|m]; [contradiction|]. cbn [fetches_at_most] in H.
  destruct (respond P f s) as [o s'].
  specialize (IH o m (H o) P s').
  destruct (run P (k o) s') as [r log]. cbn [snd length] in *. lia.
Qed.

(** X7.  Whatever the provider does, [check_financial_growth] makes at
    most 2 fetches, [check_financial_ratios] at most 3, and a whole
    evaluation by [check] at most 5. *)
Theorem fetch_budget P s current_year code_name data end_date :
  (length (snd (run P (check_financial_growth (fst code_name)) s))
   <= 2)%nat /\
  (length (snd (run P (check_financial_ratios
                         current_year (fst code_name) data) s))
   <= 3)%nat /\
  (length (snd (run P (check current_year code_name data end_date) s))
   <= 5)%nat.
Proof.
  split; [|split]; apply fetches_at_most_run.
  - unfold check_financial_growth, column, iloc0. walk.
  - unfold check_financial_ratios, live_quote, last_close, column, iloc0.
    walk.
  - unfold check. destruct (len _ <? 250)%nat; [exact I|].
    destruct (check_ma_breakthrough _) as [[|] d]; [|exact I]. cbn [negb].
    unfold check_financial_growth, check_financial_ratios, live_quote,
      last_close, column, iloc0.
    walk.
Qed.

(* ===================================================================== *)
(** * Further properties of check_financial_growth *)
(* ===================================================================== *)

(** The loop of lines 126-128 on four figures. *)
Lemma profit_increasing_four (p0 p1 p2 p3 : float64) :
  profit_increasing [p0; p1; p2; p3] =
  negb (p0 <=? p1)%float && negb (p1 <=? p2)%float
  && negb (p2 <=? p3)%float.
Proof.
  unfold profit_increasing. cbn [length Nat.sub seq fold_left nth].
  destruct (p0 <=? p1)%float, (p1 <=? p2)%float, (p2 <=? p3)%float;
    reflexivity.
Qed.

(** X8.  On four or more reports, most recent first, the profit-trajectory
    test looks at the first four only.  It passes exactly when none of
    them is less than or equal to the next one, or the fourth is below 0
    and the first above 0.  For four numbers the first condition says that
    each is strictly greater than the next (equal neighbours break it);
    a NaN figure makes the comparisons it takes part in false, so that four
    NaN figures pass. *)
Theorem profit_trajectory_closed_form (p0 p1 p2 p3 : float64) older :
  (profit_trajectory (p0 :: p1 :: p2 :: p3 :: older) = true <->
   ((p0 <=? p1)%float = false /\ (p1 <=? p2)%float = false /\
    (p2 <=? p3)%float = false) \/
   ((p3 <? 0)%float = true /\ (0 <? p0)%float = true)) /\
  (PrimFloat.is_nan p0 = false /\ PrimFloat.is_nan p1 = false /\
   PrimFloat.is_nan p2 = false /\ PrimFloat.is_nan p3 = false ->
   (profit_trajectory (p0 :: p1 :: p2 :: p3 :: older) = true <->
    ((p1 <? p0)%float = true /\ (p2 <? p1)%float = true /\
     (p3 <? p2)%float = true) \/
    ((p3 <? 0)%float = true /\ (0 <? p0)%float = true))) /\
  profit_trajectory (nan :: nan :: nan :: nan :: older) = true.
Proof.
  assert (Hgen :
            profit_trajectory (p0 :: p1 :: p2 :: p3 :: older) = true <->
            ((p0 <=? p1)%float = false /\ (p1 <=? p2)%float = false /\
             (p2 <=? p3)%float = false) \/
            ((p3 <? 0)%float = true /\ (0 <? p0)%float = true)).
  { unfold profit_trajectory. cbn [firstn length Nat.ltb Nat.leb].
    rewrite profit_increasing_four. unfold profit_turning_positive.
    cbn [nth].
    rewrite orb_true_iff, !andb_true_iff, !negb_true_iff. tauto. }
  split; [exact Hgen|]. split; [|reflexivity].
  intros (H0 & H1 & H2 & H3). rewrite Hgen.
  rewrite (@ltb_not_leb p1 p0 H1 H0), (@ltb_not_leb p2 p1 H2 H1),
    (@ltb_not_leb p3 p2 H3 H2).
  rewrite !negb_true_iff. tauto.
Qed.

Lemma profit_trajectory_short l :
  (length l < 4)%nat -> profit_trajectory l = false.
Proof.
  intros H. unfold profit_trajectory.
  destruct (Nat.ltb_spec (length (firstn 4 l)) 4) as [_|Hge];
    [reflexivity|].
  rewrite length_firstn in Hge. lia.
Qed.

Lemma eval_ret {R} O (r : R) : eval O (Ret r) = Returned r.
Proof. reflexivity. Qed.

Lemma eval_raise {R} O e : @eval R O (Raise e) = Raised e.
Proof. reflexivity. Qed.

(** Pushes [eval] through the next steps of a computation. *)
Ltac push :=
  monad;
  rewrite ?eval_try_catch, ?eval_bind, ?eval_indicator, ?eval_profit,
    ?eval_dividend, ?eval_ret, ?eval_raise.

(** What [check_financial_growth] returns, answer by answer. *)
Lemma eval_check_financial_growth O code :
  eval O (check_financial_growth code) =
  Returned
    match O (stock_financial_analysis_indicator code) with
    | Returned (Some fd) =>
        match indicator_rows fd with
        | r :: _ =>
            has_roe fd && negb (roe r <? 10)%float &&
            match O (stock_financial_report_sina code "利润表") with
            | Returned (Some pd) =>
                has_net_profit pd && profit_trajectory (net_profit_rows pd)
            | _ => false
            end
        | [] => false
        end
    | _ => false
    end.
Proof.
  unfold check_financial_growth. push.
  destruct (O (stock_financial_analysis_indicator code)) as [[fd|]|e];
    try reflexivity.
  destruct (indicator_rows fd) as [|r rs]; [reflexivity|].
  cbn [empty map iloc0]. destruct (has_roe fd); [|reflexivity].
  cbn [negb andb]. push. cbn [bind_prog].
  destruct (roe r <? 10)%float; [reflexivity|]. cbn [negb]. push.
  destruct (O (stock_financial_report_sina code "利润表")) as [[pd|]|e];
    try reflexivity.
  push.
  destruct (net_profit_rows pd) as [|p ps] eqn:Hp.
  - cbn [empty]. destruct (has_net_profit pd); reflexivity.
  - cbn [empty]. destruct (has_net_profit pd); reflexivity.
Qed.

(** X9.  With fewer than four reports in the profit statement,
    [check_financial_growth] returns false, whatever the figures and the
    indicators are. *)
Theorem too_few_profit_reports
        (O : forall f : fetch, Outcome (response f)) code pd :
  O (stock_financial_report_sina code "利润表") = Returned (Some pd) ->
  (length (net_profit_rows pd) < 4)%nat ->
  eval O (check_financial_growth code) = Returned false.
Proof.
  intros Hpd Hlen. rewrite eval_check_financial_growth, Hpd.
  rewrite (profit_trajectory_short _ Hlen).
  destruct (O (stock_financial_analysis_indicator code)) as [[fd|]|e];
    try reflexivity.
  destruct (indicator_rows fd); [reflexivity|].
  rewrite andb_false_r, andb_false_r. reflexivity.
Qed.

Lemma too_few_profit_reports_witness :
  eval (answers [30; 20; 10]%float 1 quote_down)
       (check_financial_growth "600000") = Returned false.
Proof.
  apply (@too_few_profit_reports
           (answers [30; 20; 10]%float 1 quote_down) "600000"
           (mkProfits true [30; 20; 10]%float)).
  - reflexivity.
  - cbn. lia.
Defined.

(** X10.  When the indicators lack the ROE column, or the most recent ROE
    is below 10, [check_financial_growth] returns false after that one
    fetch: the profit statement is never asked for. *)
Theorem roe_gate_short_circuits P s s' code fd r rs :
  respond P (stock_financial_analysis_indicator code) s
  = (Returned (Some fd), s') ->
  indicator_rows fd = r :: rs ->
  has_roe fd = false \/ (roe r <? 10)%float = true ->
  run P (check_financial_growth code) s =
  (Returned false, [mkEvent (stock_financial_analysis_indicator code) false]).
Proof.
  intros Hresp Hrows Hroe. unfold check_financial_growth. monad.
  cbn [run try_catch bind_prog call]. rewrite Hresp.
  cbn [is_raised try_catch bind_prog]. rewrite Hrows. cbn [empty].
  destruct (has_roe fd) eqn:Hhas; [|reflexivity].
  destruct Hroe as [Hroe|Hroe]; [discriminate|].
  cbn [negb map iloc0]. monad.
  cbn [bind_prog try_catch]. rewrite Hroe. reflexivity.
Qed.

Lemma roe_gate_short_circuits_witness :
  run (stateless weak_answers) (check_financial_growth "600000") tt =
  (Returned false,
   [mkEvent (stock_financial_analysis_indicator "600000") false]).
Proof.
  apply (@roe_gate_short_circuits (stateless weak_answers) tt tt "600000"
           weak_indicators (mkIndicator 9.5 35) []).
  - reflexivity.
  - reflexivity.
  - right. reflexivity.
Defined.

(** X11.  Against a provider with fixed answers,
    [check_financial_growth] returns true exactly when the indicators come
    back non-empty with an ROE column whose first cell is not below 10 (a
    number that is at least 10, or NaN, which no comparison rejects), and
    the profit statement comes back with a 净利润 column that passes the
    trajectory test. *)
Theorem check_financial_growth_passes_iff
        (O : forall f : fetch, Outcome (response f)) code :
  eval O (check_financial_growth code) = Returned true <->
  exists fd r rs pd,
    O (stock_financial_analysis_indicator code) = Returned (Some fd) /\
    indicator_rows fd = r :: rs /\
    has_roe fd = true /\
    (roe r <? 10)%float = false /\
    O (stock_financial_report_sina code "利润表") = Returned (Some pd) /\
    has_net_profit pd = true /\
    profit_trajectory (net_profit_rows pd) = true.
Proof.
  rewrite eval_check_financial_growth. split.
  - intros H.
    destruct (O (stock_financial_analysis_indicator code)) as [[fd|]|e];
      try discriminate H.
    destruct (indicator_rows fd) as [|r rs] eqn:Hrows; [discriminate H|].
    destruct (O (stock_financial_report_sina code "利润表")) as [[pd|]|e];
      try (rewrite andb_false_r in H; discriminate H).
    injection H as Hb.
    apply andb_true_iff in Hb. destruct Hb as [Hb Hp].
    apply andb_true_iff in Hb. destruct Hb as [Hhas Hroe].
    apply andb_true_iff in Hp. destruct Hp as [Hcol Htraj].
    apply negb_true_iff in Hroe.
    exists fd, r, rs, pd.
    split; [reflexivity|]. split; [exact Hrows|]. split; [exact Hhas|].
    split; [exact Hroe|]. split; [reflexivity|].
    split; [exact Hcol | exact Htraj].
  - intros (fd & r & rs & pd & Hfd & Hrows & Hhas & Hroe & Hpd & Hcol & Ht).
    rewrite Hfd, Hrows, Hpd, Hhas, Hcol, Ht, Hroe. reflexivity.
Qed.

(** A NaN ROE is not below 10: with a rising profit column the gate
    passes. *)
Example nan_roe_passes :
  eval (answers_of (Returned (Some (mkIndicators true true
                                      [mkIndicator nan 10])))
                   (Returned (Some (mkProfits true [8; 2; -5; -10]%float)))
                   (Returned None) quote_down)
       (check_financial_growth "600000") = Returned true.
Proof. vm_compute. reflexivity. Qed.

(* ===================================================================== *)
(** * Further properties of check_financial_ratios *)
(* ===================================================================== *)

(** The ways the live-quote look-up can end. *)
Lemma live_quote_run P s code :
  exists q,
    fst (run P (live_quote code) s) = Returned q /\
    forall p,
      q = Some p ->
      exists sf s' r,
        respond P stock_zh_a_spot_em s = (Returned (Some sf), s') /\
        In r (spot_rows sf) /\ spot_code r = code /\ latest r = p.
Proof.
  unfold live_quote, column, iloc0. monad.
  cbn [run try_catch bind_prog call].
  destruct (respond P stock_zh_a_spot_em s) as [[[sf|]|e] s'];
    cbn [try_catch bind_prog run fst];
    try (exists None; split; [reflexivity | discriminate]).
  destruct (has_code sf); cbn [try_catch bind_prog run fst];
    [| exists None; split; [reflexivity | discriminate]].
  destruct (filter (fun r => String.eqb (spot_code r) code) (spot_rows sf))
    as [|r rows] eqn:Hf; cbn [empty try_catch bind_prog run fst];
    [exists None; split; [reflexivity | discriminate]|].
  destruct (has_latest sf); cbn [map try_catch bind_prog run fst];
    [| exists None; split; [reflexivity | discriminate]].
  exists (Some (latest r)). split; [reflexivity|].
  intros p Hp. inversion Hp; subst p.
  assert (Hin : In r (filter (fun r => String.eqb (spot_code r) code)
                             (spot_rows sf)))
    by (rewrite Hf; left; reflexivity).
  apply filter_In in Hin. destruct Hin as [Hin Heq].
  apply String.eqb_eq in Heq.
  exists sf, s', r. repeat split; assumption.
Qed.

(** X15.  The live-quote look-up never raises, whatever the provider does;
    and when it yields a price, the provider did return a quote table, and
    that price is the 最新价 of a row of the table whose 代码 is the code
    asked for: never the price of another stock. *)
Theorem live_quote_sound P s code :
  exists q,
    fst (run P (live_quote code) s) = Returned q /\
    forall p,
      q = Some p ->
      exists sf s' r,
        respond P stock_zh_a_spot_em s = (Returned (Some sf), s') /\
        In r (spot_rows sf) /\ spot_code r = code /\ latest r = p.
Proof. exact (live_quote_run P s code). Qed.

(** What [check_financial_ratios] returns, answer by answer. *)
Lemma eval_check_financial_ratios O current_year code data :
  eval O (check_financial_ratios current_year code data) =
  Returned
    match O (stock_financial_analysis_indicator code) with
    | Returned (Some bd) =>
        match indicator_rows bd with
        | r :: _ =>
            has_debt_ratio bd && negb (20 <? debt_ratio r)%float &&
            match O (stock_history_dividend_detail code) with
            | Returned (Some dd) =>
                has_year dd &&
                match dividends_since (current_year - 1)
                                      (dividend_rows dd) with
                | [] => false
                | d :: ds =>
                    match quote_or_last_close
                            (spec_live_quote (O stock_zh_a_spot_em) code)
                            data with
                    | Some price =>
                        has_amount dd &&
                        negb (dividend_yield
                                (series_sum (map amount (d :: ds))) price
                              <? 3)%float
                    | None => false
                    end
                end
            | _ => false
            end
        | [] => false
        end
    | _ => false
    end.
Proof.
  unfold check_financial_ratios. push.
  destruct (O (stock_financial_analysis_indicator code)) as [[bd|]|e];
    try reflexivity.
  destruct (indicator_rows bd) as [|r rs]; [reflexivity|].
  cbn [empty map iloc0]. destruct (has_debt_ratio bd); [|reflexivity].
  cbn [negb andb]. push. cbn [bind_prog].
  destruct (20 <? debt_ratio r)%float; [reflexivity|]. cbn [negb]. push.
  destruct (O (stock_history_dividend_detail code)) as [[dd|]|e];
    try reflexivity.
  push.
  destruct (dividend_rows dd) as [|d0 ds0] eqn:Hrows.
  { cbn [empty]. rewrite andb_false_r. reflexivity. }
  cbn [empty]. unfold column.
  destruct (has_year dd); [|reflexivity].
  cbn [andb]. push. cbn [bind_prog].
  destruct (dividends_since (current_year - 1) (d0 :: ds0)) as [|d ds];
    [reflexivity|].
  cbn [length Nat.eqb]. push. rewrite eval_live_quote.
  unfold quote_or_last_close, last_close.
  destruct (spec_live_quote (O stock_zh_a_spot_em) code) as [p|].
  - push. destruct (has_amount dd); push; [|reflexivity].
    cbn [bind_prog andb]. destruct (_ <? 3)%float; reflexivity.
  - destruct (rev (col_close data)) as [|c cs]; push; [reflexivity|].
    destruct (has_amount dd); push; [|reflexivity].
    cbn [bind_prog andb]. destruct (_ <? 3)%float; reflexivity.
Qed.

(** X12.  Against a provider with fixed answers, [check_financial_ratios]
    returns true exactly when the indicators come back non-empty with a
    debt-ratio column whose first cell is not above 20 (NaN included), the
    dividend history comes back with its 年份 and 分红金额(元) columns and
    at least one record dated in the previous year or later, a price is
    available (the live quote, else the last close), and the float64 yield
    computed from them is not below 3 (NaN included). *)
Theorem check_financial_ratios_passes_iff
        (O : forall f : fetch, Outcome (response f))
        current_year code data :
  eval O (check_financial_ratios current_year code data) = Returned true <->
  exists bd r rs dd price,
    O (stock_financial_analysis_indicator code) = Returned (Some bd) /\
    indicator_rows bd = r :: rs /\
    has_debt_ratio bd = true /\
    (20 <? debt_ratio r)%float = false /\
    O (stock_history_dividend_detail code) = Returned (Some dd) /\
    has_year dd = true /\
    has_amount dd = true /\
    dividends_since (current_year - 1) (dividend_rows dd) <> [] /\
    quote_or_last_close (spec_live_quote (O stock_zh_a_spot_em) code) data
    = Some price /\
    (dividend_yield
       (series_sum (map amount
                        (dividends_since (current_year - 1)
                                         (dividend_rows dd))))
       price <? 3)%float = false.
Proof.
  rewrite eval_check_financial_ratios. split.
  - intros H.
    destruct (O (stock_financial_analysis_indicator code)) as [[bd|]|e];
      try discriminate H.
    destruct (indicator_rows bd) as [|r rs] eqn:Hrows; [discriminate H|].
    destruct (O (stock_history_dividend_detail code)) as [[dd|]|e];
      try (rewrite andb_false_r in H; discriminate H).
    destruct (dividends_since (current_year - 1) (dividend_rows dd))
      as [|d ds] eqn:Hrec;
      [rewrite !andb_false_r in H; discriminate H|].
    destruct (quote_or_last_close
                (spec_live_quote (O stock_zh_a_spot_em) code) data)
      as [price|] eqn:Hprice;
      [|rewrite !andb_false_r in H; discriminate H].
    injection H as Hb.
    apply andb_true_iff in Hb. destruct Hb as [Hb Hd].
    apply andb_true_iff in Hb. destruct Hb as [Hhas Hdebt].
    apply andb_true_iff in Hd. destruct Hd as [Hyear Hd].
    apply andb_true_iff in Hd. destruct Hd as [Hamount Hyield].
    apply negb_true_iff in Hdebt. apply negb_true_iff in Hyield.
    exists bd, r, rs, dd, price.
    split; [reflexivity|]. split; [exact Hrows|].
    split; [exact Hhas|]. split; [exact Hdebt|].
    split; [reflexivity|]. split; [exact Hyear|].
    split; [exact Hamount|]. rewrite Hrec. split; [discriminate|].
    split; [reflexivity | exact Hyield].
  - intros (bd & r & rs & dd & price & Hbd & Hrows & Hhas & Hdebt
            & Hdd & Hyear & Hamount & Hrec & Hprice & Hyield).
    rewrite Hbd, Hrows, Hdd, Hhas, Hyear, Hdebt.
    destruct (dividends_since (current_year - 1) (dividend_rows dd))
      as [|d ds]; [contradiction Hrec; reflexivity|].
    rewrite Hprice, Hamount, Hyield. reflexivity.
Qed.

(** A record dated after the current year qualifies too, and a NaN debt
    ratio is not above 20. *)
Example later_record_and_nan_debt_pass :
  eval (answers_of (Returned (Some (mkIndicators true true
                                      [mkIndicator 15 nan])))
                   (Returned None)
                   (Returned (Some (mkDividends true true
                                                [mkDividend 2031 1])))
                   quote_down)
       (check_financial_ratios 2026 "600000" sideways) = Returned true.
Proof. vm_compute. reflexivity. Qed.

(** X13.  When the indicators lack the debt-ratio column, or the most
    recent debt ratio is above 20, [check_financial_ratios] returns false
    after that one fetch: neither the dividend history nor the quote is
    asked for. *)
Theorem debt_gate_short_circuits P s s' current_year code data bd r rs :
  respond P (stock_financial_analysis_indicator code) s
  = (Returned (Some bd), s') ->
  indicator_rows bd = r :: rs ->
  has_debt_ratio bd = false \/ (20 <? debt_ratio r)%float = true ->
  run P (check_financial_ratios current_year code data) s =
  (Returned false, [mkEvent (stock_financial_analysis_indicator code) false]).
Proof.
  intros Hresp Hrows Hdebt. unfold check_financial_ratios. monad.
  cbn [run try_catch bind_prog call]. rewrite Hresp.
  cbn [is_raised try_catch bind_prog]. rewrite Hrows. cbn [empty].
  destruct (has_debt_ratio bd) eqn:Hhas; [|reflexivity].
  destruct Hdebt as [Hdebt|Hdebt]; [discriminate|].
  cbn [negb map iloc0]. monad.
  cbn [bind_prog try_catch]. rewrite Hdebt. reflexivity.
Qed.

Lemma debt_gate_short_circuits_witness :
  run (stateless weak_answers)
      (check_financial_ratios 2026 "600000" sideways) tt =
  (Returned false,
   [mkEvent (stock_financial_analysis_indicator "600000") false]).
Proof.
  apply (@debt_gate_short_circuits (stateless weak_answers) tt tt 2026
           "600000" sideways weak_indicators (mkIndicator 9.5 35) []).
  - reflexivity.
  - reflexivity.
  - right. reflexivity.
Defined.

(** X14.  When the debt test lets the company through but the dividend
    history holds no record dated in the previous year or later (an empty
    history included), [check_financial_ratios] returns false after two
    fetches: the quote is never asked for. *)
Theorem no_recent_dividend_short_circuits
        P s s1 s2 current_year code data bd r rs dd :
  respond P (stock_financial_analysis_indicator code) s
  = (Returned (Some bd), s1) ->
  indicator_rows bd = r :: rs ->
  has_debt_ratio bd = true ->
  (20 <? debt_ratio r)%float = false ->
  respond P (stock_history_dividend_detail code) s1
  = (Returned (Some dd), s2) ->
  dividends_since (current_year - 1) (dividend_rows dd) = [] ->
  run P (check_financial_ratios current_year code data) s =
  (Returned false,
   [mkEvent (stock_financial_analysis_indicator code) false;
    mkEvent (stock_history_dividend_detail code) false]).
Proof.
  intros Hbd Hrows Hhas Hdebt Hdd Hrec.
  unfold check_financial_ratios, column. monad.
  cbn [run try_catch bind_prog call]. rewrite Hbd.
  cbn [is_raised try_catch bind_prog]. rewrite Hrows, Hhas.
  cbn [empty negb map iloc0]. monad. cbn [bind_prog try_catch].
  rewrite Hdebt.
  cbn [run try_catch bind_prog call]. rewrite Hdd.
  cbn [is_raised try_catch bind_prog].
  destruct (dividend_rows dd) as [|d ds] eqn:Hd; [reflexivity|].
  cbn [empty]. destruct (has_year dd); [|reflexivity].
  monad. cbn [bind_prog try_catch]. rewrite Hrec. reflexivity.
Qed.

Lemma no_recent_dividend_short_circuits_witness :
  run (stateless stale_answers)
      (check_financial_ratios 2026 "600000" sideways) tt =
  (Returned false,
   [mkEvent (stock_financial_analysis_indicator "600000") false;
    mkEvent (stock_history_dividend_detail "600000") false]).
Proof.
  apply (@no_recent_dividend_short_circuits
           (stateless stale_answers) tt tt tt 2026 "600000" sideways
           healthy_indicators (mkIndicator 15 10) [] stale_dividends).
  - reflexivity.
  - reflexivity.
  - reflexivity.
  - reflexivity.
  - reflexivity.
  - reflexivity.
Defined.

(** X16.  With no live quote and a series without any bar there is no
    price to fall back on: the IndexError of [data.iloc[-1]] is absorbed
    and [check_financial_ratios] returns false. *)
Theorem no_price_fails
        (O : forall f : fetch, Outcome (response f))
        current_year code data :
  eval O (live_quote code) = Returned None ->
  bars data = [] ->
  eval O (check_financial_ratios current_year code data) = Returned false.
Proof.
  intros Hq Hbars.
  rewrite eval_live_quote in Hq. injection Hq as Hq.
  rewrite eval_check_financial_ratios, Hq.
  unfold quote_or_last_close, col_close. rewrite Hbars. cbn [map rev].
  destruct (O (stock_financial_analysis_indicator code)) as [[bd|]|e];
    try reflexivity.
  destruct (indicator_rows bd); [reflexivity|].
  destruct (O (stock_history_dividend_detail code)) as [[dd|]|e];
    rewrite ?andb_false_r; try reflexivity.
  destruct (dividends_since _ _); rewrite ?andb_false_r; reflexivity.
Qed.

Lemma no_price_fails_witness :
  eval (answers [] 1 quote_down)
       (check_financial_ratios 2026 "600000" no_bars) = Returned false.
Proof.
  apply (@no_price_fails (answers [] 1 quote_down) 2026 "600000" no_bars).
  - reflexivity.
  - reflexivity.
Defined.

(** The quotient of a non-negative total by the positive zero is +inf or
    NaN, and neither is below 3. *)
Lemma dividend_yield_zero_price (total : float64) :
  (0 <=? total)%float = true ->
  (dividend_yield total 0 <? 3)%float = false.
Proof.
  intros H. unfold dividend_yield.
  rewrite FloatAxioms.ltb_spec, mul_spec, div_spec.
  rewrite FloatAxioms.leb_spec in H.
  change (Prim2SF 0) with (S754_zero false) in *.
  destruct (Prim2SF total) as [s|s| |s m e];
    try discriminate H; try reflexivity.
  - destruct s; [discriminate H | reflexivity].
  - destruct s; [discriminate H | reflexivity].
Qed.

(** X17.  A zero price does not stop the yield test.  When the function
    gets as far as the yield with a price of 0.0 (the positive zero) and a
    dividend total that compares at least 0, the quotient is +inf (or NaN
    when the total is zero too), the comparison [< 3] is false, and
    [check_financial_ratios] returns true. *)
Theorem zero_price_passes
        (O : forall f : fetch, Outcome (response f))
        current_year code data bd r rs dd quote :
  O (stock_financial_analysis_indicator code) = Returned (Some bd) ->
  indicator_rows bd = r :: rs ->
  has_debt_ratio bd = true ->
  (20 <? debt_ratio r)%float = false ->
  O (stock_history_dividend_detail code) = Returned (Some dd) ->
  has_year dd = true ->
  has_amount dd = true ->
  dividends_since (current_year - 1) (dividend_rows dd) <> [] ->
  eval O (live_quote code) = Returned quote ->
  quote_or_last_close quote data = Some 0%float ->
  (0 <=? series_sum
           (map amount
                (dividends_since (current_year - 1) (dividend_rows dd))))%float
  = true ->
  eval O (check_financial_ratios current_year code data) = Returned true.
Proof.
  intros Hbd Hrows Hhas Hdebt Hdd Hyear Hamount Hrec Hq Hprice Hpos.
  rewrite eval_live_quote in Hq. injection Hq as Hq. subst quote.
  rewrite (@eval_check_financial_ratios_yield
             O current_year code data bd r rs dd 0%float
             Hbd Hrows Hhas Hdebt Hdd Hyear Hamount Hrec Hprice).
  rewrite dividend_yield_zero_price by exact Hpos. reflexivity.
Qed.

Lemma zero_price_passes_witness :
  eval (answers [] 1 (quote_at "600000" 0))
       (check_financial_ratios 2026 "600000" sideways) = Returned true.
Proof.
  apply (@zero_price_passes
           (answers [] 1 (quote_at "600000" 0)) 2026 "600000" sideways
           healthy_indicators (mkIndicator 15 10) []
           (mkDividends true true [mkDividend 2026 1]) (Some 0%float));
    try reflexivity; discriminate.
Defined.

(* ===================================================================== *)
(** * Further properties: the gates in sequence *)
(* ===================================================================== *)

Lemma filter_keeps_all {A} (p : A -> bool) (l : list A) :
  Forall (fun a => p a = true) l -> filter p l = l.
Proof.
  induction 1 as [|a l Ha _ IH]; [reflexivity|].
  cbn. rewrite Ha, IH. reflexivity.
Qed.

(** X18.  A cut that removes no bar changes neither the verdict nor the
    fetches: when every bar is dated [end_date] or earlier, [check] with
    that end date runs the same provider computation as [check] without
    one.  What it does change is where the derived columns land.  With the
    end date the caller's frame is left exactly as it was; without one, a
    series of 250 bars or more comes back with MA250 and MA60 assigned, so
    that on a frame that did not carry MA250 the two calls leave different
    frames behind. *)
Theorem cut_that_removes_nothing current_year code_name data end_date :
  Forall (fun b => (date b <= end_date)%Z) (bars data) ->
  check current_year code_name data (Some end_date) =
  check current_year code_name data None /\
  check_frame data (Some end_date) = data /\
  ((250 <= len data)%nat ->
   bars (check_frame data None) = bars data /\
   MA250 (check_frame data None) = Some (MA (col_close data) 250) /\
   MA60 (check_frame data None) = Some (MA (col_close data) 60) /\
   (MA250 data = None ->
    check_frame data None <> check_frame data (Some end_date))).
Proof.
  intros H. split; [|split].
  - apply check_bars. rewrite bars_until. cbn [until].
    apply filter_keeps_all.
    apply Forall_impl with (2 := H). intros b Hb. apply Z.leb_le. exact Hb.
  - reflexivity.
  - intros Hlen. unfold check_frame.
    destruct (Nat.ltb_spec (len data) 250) as [Hlt|_]; [lia|].
    rewrite check_ma_breakthrough_frame.
    split; [reflexivity|]. split; [reflexivity|]. split; [reflexivity|].
    intros Hnone Heq. apply (f_equal MA250) in Heq.
    rewrite Hnone in Heq. discriminate Heq.
Qed.

Lemma cut_that_removes_nothing_witness :
  check 2026 ("600000", "name") reversal (Some 299%Z) =
  check 2026 ("600000", "name") reversal None /\
  check_frame reversal (Some 299%Z) = reversal /\
  check_frame reversal None <> check_frame reversal (Some 299%Z).
Proof.
  assert (Hdates : Forall (fun b => (date b <= 299)%Z) (bars reversal)).
  { apply Forall_forall. intros b Hb. apply Z.leb_le.
    assert (Hall : forallb (fun b => (date b <=? 299)%Z) (bars reversal)
                   = true) by (vm_compute; reflexivity).
    rewrite forallb_forall in Hall. apply Hall. exact Hb. }
  destruct (@cut_that_removes_nothing 2026 ("600000", "name") reversal
              299%Z Hdates) as (Hsame & Hkept & Hgain).
  split; [exact Hsame|]. split; [exact Hkept|].
  assert (Hlen : (250 <= len reversal)%nat)
    by (apply Nat.leb_le; vm_compute; reflexivity).
  destruct (Hgain Hlen) as (_ & _ & _ & Hdiff).
  apply Hdiff. reflexivity.
Defined.

Lemma mean_fin l : l <> [] -> is_fin (mean l).
Proof. destruct l; [congruence | intros _; exact I]. Qed.

(** X19.  The detector passes only on a series of at least 262 bars whose
    MA60 difference over the downtrend window is strictly negative, with
    at least 8 of the 10 bars before the break below MA250, at least 3 of
    the last 5 above it, and a mean volume of the last 5 bars strictly
    above that of the 25 bars before them. *)
Theorem breakthrough_pass_only_if data :
  fst (check_ma_breakthrough data) = true ->
  (262 <= len data)%nat /\
  lt (ma60_slope data) (Fin 0) = true /\
  (8 <= below_ma250_before data)%nat /\
  (3 <= above_ma250_after data)%nat /\
  lt (avg_volume_before data) (avg_volume_after data) = true.
Proof.
  intros Ht.
  assert (Hn : (262 <= len data)%nat).
  { destruct (Nat.le_gt_cases 262 (len data)) as [H|H]; [exact H|].
    rewrite (check_ma_breakthrough_short data H) in Ht. discriminate. }
  apply check_ma_breakthrough_true in Ht.
  destruct Ht as (_ & Hslope & _ & _ & Hbelow & Habove & Hvol).
  split; [exact Hn|]. split; [|split; [|split]].
  - destruct (ma60_slope_finite data) as [q Hq]; [lia|].
    rewrite Hq in *. apply fin_not_ge_lt; [exact I | exact I | exact Hslope].
  - apply Nat.ltb_ge in Hbelow. exact Hbelow.
  - apply Nat.ltb_ge in Habove. exact Habove.
  - apply fin_not_ge_lt; [| | exact Hvol]; apply mean_fin;
      intros E; apply (f_equal (@length Z)) in E;
      unfold col_volume in E; rewrite length_map in E;
      [fold (len (before_break data)) in E; rewrite len_before_break in E
      |fold (len (after_break data)) in E; rewrite len_after_break in E];
      cbn [length] in E; lia.
Qed.

Lemma breakthrough_pass_only_if_witness :
  (262 <= len reversal)%nat /\
  lt (avg_volume_before reversal) (avg_volume_after reversal) = true.
Proof.
  destruct (breakthrough_pass_only_if reversal) as (Hn & _ & _ & _ & Hv).
  - vm_compute. reflexivity.
  - split; [exact Hn | exact Hv].
Defined.

(** A computation that has returned false, followed by a step that maps
    false to false, is that computation: same result, same fetches. *)
Lemma run_bind_false P (p : Prog bool) (g : bool -> Prog bool) :
  g false = Ret false ->
  forall s,
    fst (run P p s) = Returned false ->
    run P (bind_prog p g) s = run P p s.
Proof.
  intros Hg. induction p as [r|e|f k IH]; intros s H; cbn [run bind_prog] in *.
  - cbn in H. injection H as ->. rewrite Hg. reflexivity.
  - discriminate H.
  - destruct (respond P f s) as [o s'].
    specialize (IH o s').
    destruct (run P (k o) s') as [r log] eqn:Hr. cbn [fst] in H.
    rewrite IH by exact H. reflexivity.
Qed.

(** X20.  When the series passes the length guard and the detector but
    [check_financial_growth] returns false, [check] returns false with
    the fetches of [check_financial_growth] and no other: the ratios gate
    is never entered. *)
Theorem growth_gate_short_circuits P s current_year code_name data end_date :
  (250 <= len (until end_date data))%nat ->
  fst (check_ma_breakthrough (until end_date data)) = true ->
  fst (run P (check_financial_growth (fst code_name)) s) = Returned false ->
  run P (check current_year code_name data end_date) s =
  run P (check_financial_growth (fst code_name)) s /\
  fst (run P (check current_year code_name data end_date) s)
  = Returned false.
Proof.
  intros Hn Hd Hg.
  assert (E : run P (check current_year code_name data end_date) s =
              run P (check_financial_growth (fst code_name)) s).
  { unfold check.
    destruct (Nat.ltb_spec (len (until end_date data)) 250); [lia|].
    destruct (check_ma_breakthrough (until end_date data)) as [b d].
    cbn [fst] in Hd. subst b. cbn [negb]. monad.
    apply run_bind_false; [reflexivity | exact Hg]. }
  split; [exact E|]. rewrite E. exact Hg.
Qed.

Lemma growth_gate_short_circuits_witness :
  run (stateless weak_answers)
      (check 2026 ("600000", "name") reversal None) tt =
  run (stateless weak_answers) (check_financial_growth "600000") tt.
Proof.
  apply (@growth_gate_short_circuits (stateless weak_answers) tt 2026
           ("600000", "name") reversal None).
  - apply Nat.leb_le. vm_compute. reflexivity.
  - vm_compute. reflexivity.
  - reflexivity.
Defined.
